(** * GoalGame: the game-state, intensity and scoring engine

    A shallow embedding of the decision logic of the GoalGame dashboard
    (TypeScript hooks and handlers, and the PL/pgSQL triggers of the
    migrations) together with the properties its specification states.

    Conventions of the embedding.
    - Point totals and streak counters are integers ([Z]); a nullable SQL
      column is an [option].
    - A JS [Date] is its time value, a whole number of milliseconds since the
      epoch, or the invalid date.
    - A calendar date (SQL [DATE], ISO string [YYYY-MM-DD]) is its day number,
      the count of days since 1970-01-01, so that consecutive dates differ
      by one. *)

From Stdlib Require Import ZArith QArith Qabs Qminmax Lqa.
From Stdlib Require Import Bool List String Ascii Lia.
From Stdlib Require Import PrimFloat FloatOps SpecFloat.
From Stdlib Require Import DecimalString.
Import ListNotations.

Set Warnings "-inexact-float".

Local Open Scope string_scope.
Local Open Scope Z_scope.

(** ** Game-state machine (strategies/game/GameStrategy.ts) *)

Module GameStrategy.

(** [GameState] of config/game/types: the union of string literals. *)
Inductive GameState : Set :=
| active | userWinning | aiWinning | tied | endOfDay | victory | defeat.

(** [DefaultGameStrategy.getGameState]. *)
Definition getGameState (userPoints aiPoints : Z) (isEndOfDay : bool)
  : GameState :=
  if isEndOfDay then
    if userPoints >? aiPoints then victory
    else if aiPoints >? userPoints then defeat
    else endOfDay
  else
    if userPoints >? aiPoints then userWinning
    else if aiPoints >? userPoints then aiWinning
    else tied.

End GameStrategy.

(** ** Streak trigger (migration: update_streak_on_goal_complete) *)

Module Streak.

(** The columns of [public.profiles] the trigger reads and writes. *)
Record Profile : Set := mkProfile {
  current_streak : option Z;
  longest_streak : option Z;
  last_goal_date : option Z
}.

(** SQL [COALESCE(x, d)]. *)
Definition COALESCE (x : option Z) (d : Z) : Z :=
  match x with Some v => v | None => d end.

(** SQL [GREATEST] of two non-null integers. *)
Definition GREATEST (a b : Z) : Z := Z.max a b.

(** SQL [a = b] used as a condition: a comparison with NULL is not true. *)
Definition date_eq (a : option Z) (b : Z) : bool :=
  match a with Some d => d =? b | None => false end.

(** The three-way branch on [profile_record.last_goal_date], applied to the
    profile row found for the user; [today_date] is [CURRENT_DATE]. *)
Definition streak_update (today_date : Z) (p : Profile) : Profile :=
  let yesterday_date := today_date - 1 in
  if date_eq (last_goal_date p) yesterday_date then
    {| current_streak := Some (COALESCE (current_streak p) 0 + 1);
       longest_streak :=
         Some (GREATEST (COALESCE (longest_streak p) 0)
                        (COALESCE (current_streak p) 0 + 1));
       last_goal_date := Some today_date |}
  else if date_eq (last_goal_date p) today_date then
    p
  else
    {| current_streak := Some 1;
       longest_streak := Some (GREATEST (COALESCE (longest_streak p) 0) 1);
       last_goal_date := Some today_date |}.

(** [update_streak_on_goal_complete]: the AFTER UPDATE trigger on
    [public.goals].  [old_completed] and [new_completed] are the
    [completed] column of OLD and NEW (nullable booleans); [profile] is the
    result of the SELECT ([None] when no row is FOUND).  The result is the
    profile row after the trigger. *)
Definition update_streak_on_goal_complete
    (today_date : Z) (old_completed new_completed : option bool)
    (profile : option Profile) : option Profile :=
  let newly_completed :=
    match new_completed, old_completed with
    | Some true, Some false => true
    | Some true, None => true
    | _, _ => false
    end in
  if newly_completed then
    match profile with
    | Some p => Some (streak_update today_date p)
    | None => None
    end
  else profile.

End Streak.

(** ** JavaScript values used by the hooks *)

Module Js.

(** A JS number restricted to what the engine computes with on times and
    scores: a whole number (held exactly, without rounding to a double) or
    [NaN]. *)
Inductive number : Set :=
| Num (z : Z)
| NaN.

(** Relational operators: any comparison with [NaN] is false. *)
Definition lt (a b : number) : bool :=
  match a, b with Num x, Num y => x <? y | _, _ => false end.
Definition le (a b : number) : bool :=
  match a, b with Num x, Num y => x <=? y | _, _ => false end.
Definition gt (a b : number) : bool := lt b a.

Definition sub (a b : number) : number :=
  match a, b with Num x, Num y => Num (x - y) | _, _ => NaN end.

(** [Math.max]: [NaN] as soon as one argument is. *)
Definition Math_max (a b : number) : number :=
  match a, b with Num x, Num y => Num (Z.max x y) | _, _ => NaN end.

(** [s.split(sep)] for a one-character separator: the fields between the
    separators, the empty string giving one empty field. *)
Fixpoint split (sep : ascii) (s : string) : list string :=
  match s with
  | EmptyString => [EmptyString]
  | String c rest =>
      if Ascii.eqb c sep then EmptyString :: split sep rest
      else match split sep rest with
           | field :: fields => String c field :: fields
           | [] => [String c EmptyString]
           end
  end.

Definition digit (c : ascii) : option Z :=
  let n := Z.of_nat (nat_of_ascii c) in
  if (48 <=? n) && (n <=? 57) then Some (n - 48) else None.

Fixpoint digits (acc : Z) (s : string) : number :=
  match s with
  | EmptyString => Num acc
  | String c rest =>
      match digit c with
      | Some d => digits (acc * 10 + d) rest
      | None => NaN
      end
  end.

(** [Number(s)] on the fields of a time string: a run of decimal digits is
    its value, the empty string is 0, a field with any other character is
    not numeric.  (Signs, fractions, exponents, radix prefixes and
    surrounding white space, which JS also accepts, do not occur in
    [HH:MM] settings and are not modelled here: [Ecma.Number] below is the
    conversion in full.) *)
Definition Number (s : string) : number := digits 0 s.

(** Array destructuring [const [a, b] = xs]: a missing element is
    [undefined], which the time setters convert to [NaN]. *)
Definition element (i : nat) (xs : list number) : number := nth i xs NaN.

End Js.

(** ** JS [Date] in a fixed time zone *)

Module JsDate.
Import Js.

Definition msPerSecond : Z := 1000.
Definition msPerMinute : Z := 60000.
Definition msPerHour : Z := 3600000.
Definition msPerDay : Z := 86400000.

(** ECMAScript's abstract operations on time values. *)
Definition Day (t : Z) : Z := t / msPerDay.
Definition TimeWithinDay (t : Z) : Z := t mod msPerDay.
Definition SecFromTime (t : Z) : Z := (t / msPerSecond) mod 60.
Definition msFromTime (t : Z) : Z := t mod msPerSecond.
Definition MakeTime (hour min sec ms : Z) : Z :=
  hour * msPerHour + min * msPerMinute + sec * msPerSecond + ms.
Definition MakeDate (day time : Z) : Z := day * msPerDay + time.

(** A wall-clock time [HH:MM:SS], the value of a SQL [TIME] column. *)
Record TimeOfDay : Set := mkTime { hh : Z; mm : Z; ss : Z }.

Definition timeMs (t : TimeOfDay) : Z := MakeTime (hh t) (mm t) (ss t) 0.

Section Zone.

(** The offset of local time from UTC in minutes (positive east of
    Greenwich, the opposite of [getTimezoneOffset()]), taken as constant:
    daylight-saving transitions are not modelled here ([Ecma.Zone] below
    has them). *)
Variable tz : Z.

Definition LocalTime (t : Z) : Z := t + tz * msPerMinute.
Definition UTC (t : Z) : Z := t - tz * msPerMinute.

(** [d.setHours(hour, min, sec, ms)]: the local calendar day of [d] is
    kept and its time within the day replaced; an invalid date or a
    [NaN] argument gives the invalid date.  (Time values are not
    clipped to the range of [Date].) *)
Definition setHours (d hour min sec ms : number) : number :=
  match d, hour, min, sec, ms with
  | Num t, Num h, Num m, Num s, Num milli =>
      Num (UTC (MakeDate (Day (LocalTime t)) (MakeTime h m s milli)))
  | _, _, _, _, _ => NaN
  end.

(** [d.setHours(hour, min, sec)]: the milliseconds of [d] are kept. *)
Definition setHours3 (d hour min sec : number) : number :=
  match d with
  | Num t => setHours d hour min sec (Num (msFromTime (LocalTime t)))
  | NaN => NaN
  end.

(** [d.setHours(hour, min)]: the seconds and milliseconds of [d] are
    kept. *)
Definition setHours2 (d hour min : number) : number :=
  match d with
  | Num t =>
      setHours d hour min (Num (SecFromTime (LocalTime t)))
               (Num (msFromTime (LocalTime t)))
  | NaN => NaN
  end.

(** [d.setDate(d.getDate() + n)]: [n] local calendar days later, at the
    same local time. *)
Definition addDays (d : number) (n : Z) : number :=
  match d with
  | Num t =>
      Num (UTC (MakeDate (Day (LocalTime t) + n)
                         (TimeWithinDay (LocalTime t))))
  | NaN => NaN
  end.

(** [new Date("YYYY-MM-DDTHH:MM:SS")]: a date-time string without offset
    is read as local time. *)
Definition parseDateTime (date : Z) (time : TimeOfDay) : number :=
  Num (UTC (MakeDate date (timeMs time))).

End Zone.

(** [new Date("YYYY-MM-DD")]: a date-only string is read as UTC midnight. *)
Definition parseDate (date : Z) : number := Num (MakeDate date 0).

(** [d.toISOString().split("T")[0]]: the UTC calendar date of [d]. *)
Definition toISODate (t : Z) : Z := Day t.

End JsDate.

(** ** The game loop hook (hooks/useGameLoop.ts) *)

Module GameLoop.
Import Js JsDate.

Inductive IntensityLevel : Set := low | medium | high | critical.

(** [calculateTimeToEOD(dayEndTime, timezone)]: milliseconds until the end
    of day.  [now] is the instant both [new Date()] calls read; the
    [timezone] argument is never used by the body and is left out.  This
    is the function on settings of digit fields, in a zone of constant
    offset; [Countdown.calculateTimeToEOD] below is the function on any
    string and in any zone. *)
Definition calculateTimeToEOD (tz now : Z) (dayEndTime : string) : number :=
  let fields := map Number (split ":" dayEndTime) in
  let hours := element 0 fields in
  let minutes := element 1 fields in
  let eod := setHours tz (Num now) hours minutes (Num 0) (Num 0) in
  (* If EOD has passed, it's for tomorrow *)
  let eod := if le eod (Num now) then addDays tz eod 1 else eod in
  Math_max (Num 0) (sub eod (Num now)).

(** Doubles, for the intensity value. *)
Definition Math_min (a b : float) : float :=
  if (PrimFloat.is_nan a || PrimFloat.is_nan b)%bool then PrimFloat.nan
  else if (b <? a)%float then b else a.

(** [x >= y] on doubles. *)
Definition geb (x y : float) : bool := (y <=? x)%float.

(** [x < y] on exact quotients. *)
Definition Qltb (x y : Q) : bool := negb (Qle_bool y x).

Arguments Math_min (a b)%_float.
Arguments geb (x y)%_float.
Arguments Qltb (x y)%_Q.

Record Intensity : Set := mkIntensity {
  level : IntensityLevel;
  value : float
}.

(** [calculateIntensity(timeToEOD, userPoints, aiPoints)].  [timeToEOD] is
    a whole number of milliseconds and the scores are integers.
    [hoursLeft] is held as the exact quotient: the double quotient of the
    source is its correct rounding, and it compares with the doubles
    0.25, 0.5, 1 and 2 as the exact quotient does.  The sub-scores and
    their weighted sum are computed in double precision as in the
    source. *)
Definition calculateIntensity (timeToEOD userPoints aiPoints : Z)
  : Intensity :=
  let hoursLeft : Q :=
    (inject_Z timeToEOD / inject_Z (1000 * 60 * 60))%Q in
  let scoreDiff := userPoints - aiPoints in
  (* Time-based intensity (0-1) *)
  let timeIntensity : float :=
    (if Qltb hoursLeft 0.25 then 1
     else if Qltb hoursLeft 0.5 then 0.8
     else if Qltb hoursLeft 1 then 0.6
     else if Qltb hoursLeft 2 then 0.4
     else 0.2)%float in
  (* Score-based intensity (losing increases intensity) *)
  let scoreIntensity : float :=
    (if (scoreDiff <? -20)%Z then 0.8
     else if (scoreDiff <? -10)%Z then 0.5
     else if (scoreDiff <? 0)%Z then 0.3
     else 0.1)%float in
  (* Combined intensity (weighted) *)
  let value :=
    Math_min 1 (timeIntensity * 0.6 + scoreIntensity * 0.4)%float in
  (* Map to discrete levels *)
  let level :=
    if geb value 0.8 then critical
    else if geb value 0.5 then high
    else if geb value 0.3 then medium
    else low in
  {| level := level; value := value |}.

(** The threat level of [useGameLoop]'s derived state, with the doubles of
    the source idealised as exact rationals. *)
Definition threatLevel (timeToEOD userPoints aiPoints : Z) : Q :=
  let scoreDiff := userPoints - aiPoints in
  let timeTheat : Q :=
    (1 - inject_Z timeToEOD / inject_Z (24 * 60 * 60 * 1000))%Q in
  let scoreTheat : Q :=
    if scoreDiff <? 0 then Qmin 1 (inject_Z (Z.abs scoreDiff) / 50)%Q
    else 0%Q in
  Qmin 1 (timeTheat * 0.5 + scoreTheat * 0.5)%Q.

End GameLoop.

(** ** The tables (migrations) *)

Module Schema.
Import JsDate.

(** [goal_type TEXT NOT NULL CHECK (goal_type IN ('daily', 'long_term'))]. *)
Inductive GoalType : Set := daily | long_term.

(** A row of [public.goals], with the columns the scoring logic reads and
    writes.  [created_at] is an instant; the nullable columns are
    options. *)
Record Goal : Set := mkGoal {
  id : Z;
  goal_type : GoalType;
  due_date : option Z;
  due_time : option TimeOfDay;
  completed : option bool;
  completed_at : option Z;
  points_earned : option Z;
  ai_points_earned : option Z;
  created_at : Z
}.

(** JS truthiness of a nullable boolean column, and SQL [b = true] taken as
    a condition. *)
Definition truthy (b : option bool) : bool :=
  match b with Some true => true | _ => false end.

(** [x || 0] on a nullable integer. *)
Definition orZero (x : option Z) : Z :=
  match x with Some v => v | None => 0 end.

End Schema.

(** ** The dashboard page (pages/Dashboard.tsx) *)

Module Dashboard.
Import Js JsDate Schema.

(** The locals [userPoints], [aiPoints] and [message] that
    [handleCompleteGoal] computes and then writes. *)
Record Award : Set := mkAward {
  userPoints : Z;
  aiPoints : Z;
  message : string
}.

(** [handleCompleteGoal(goal)]: the point split of a completion at the
    instant [now], in a browser whose local offset is [tz]. *)
Definition handleCompleteGoal (tz now : Z) (goal : Goal) : Award :=
  match goal_type goal, due_date goal, due_time goal with
  | daily, _, Some due_time =>
      let today := toISODate now in
      let dueDateTime := parseDateTime tz today due_time in
      if lt (Num now) dueDateTime
      then mkAward 20 (-5) "Early completion! +20 points (AI loses 5)"
      else mkAward 5 5 "Task completed! +5 points (AI also gets +5)"
  | daily, _, None =>
      mkAward 5 5 "Task completed! +5 points (AI also gets +5)"
  | long_term, Some due_date, Some due_time =>
      let dueDateTime := parseDateTime tz due_date due_time in
      if lt (Num now) dueDateTime
      then mkAward 20 (-5) "Early completion! +20 points (AI loses 5)"
      else mkAward 10 0 "On-time completion! +10 points"
  | long_term, Some due_date, None =>
      let dueDate := parseDate due_date in
      let dueDate := setHours3 tz dueDate (Num 23) (Num 59) (Num 59) in
      if le (Num now) dueDate
      then mkAward 10 0 "Goal achieved! +10 points"
      else mkAward 5 5 "Late completion! +5 points (AI gets +5)"
  | long_term, None, _ =>
      mkAward 10 0 "Goal completed! +10 points"
  end.

(** The callback of [goals.filter] in [handleMissedGoals]; [eodHours] and
    [eodMinutes] are the parsed day end.  [parseInt] of the hour and
    minute fields of a [TIME] value gives its hour and minute. *)
Definition missed (tz now : Z) (eodHours eodMinutes : number) (goal : Goal)
  : bool :=
  if truthy (completed goal) then false
  else
    let createdDate := Num (created_at goal) in
    match goal_type goal with
    | daily =>
        let deadline :=
          setHours tz createdDate eodHours eodMinutes (Num 0) (Num 0) in
        gt (Num now) deadline
    | long_term =>
        match due_date goal with
        | Some due_date =>
            let dueDate := parseDate due_date in
            let dueDate :=
              match due_time goal with
              | Some t =>
                  setHours tz dueDate (Num (hh t)) (Num (mm t))
                           (Num 0) (Num 0)
              | None =>
                  setHours tz dueDate eodHours eodMinutes (Num 0) (Num 0)
              end in
            gt (Num now) dueDate
        | None => false
        end
    end.

(** [profile.day_end_time || "23:59"]. *)
Definition dayEndTimeOr (day_end_time : option string) (default : string)
  : string :=
  match day_end_time with
  | Some s => if String.eqb s "" then default else s
  | None => default
  end.

(** [handleMissedGoals]: the goals the sweep selects, each of which it then
    touches with an UPDATE of [updated_at]. *)
Definition handleMissedGoals (tz now : Z) (day_end_time : option string)
    (goals : list Goal) : list Goal :=
  let dayEndTime := dayEndTimeOr day_end_time "23:59" in
  let fields := map Number (split ":" dayEndTime) in
  let eodHours := element 0 fields in
  let eodMinutes := element 1 fields in
  filter (missed tz now eodHours eodMinutes) goals.

(** The toast of the sweep announces this gain for the AI. *)
Definition announcedAiGain (missedGoals : list Goal) : Z :=
  Z.of_nat (List.length missedGoals) * 15.

(** [checkEndOfDay]: the value given to [setIsEndOfDay]. *)
Definition checkEndOfDay (tz now : Z) (day_end_time : option string) : bool :=
  let dayEndTime := dayEndTimeOr day_end_time "23:00" in
  let fields := map Number (split ":" dayEndTime) in
  let hours := element 0 fields in
  let minutes := element 1 fields in
  let endOfDay := setHours tz (Num now) hours minutes (Num 0) (Num 0) in
  let timeDiff := sub endOfDay (Num now) in
  let thirtyMinutes := Num (30 * 60 * 1000) in
  if gt timeDiff (Num 0) && le timeDiff thirtyMinutes then true
  else if le timeDiff (Num 0) && gt timeDiff (Num (-60000)) then true
  else false.

End Dashboard.

(** ** The missed-goal trigger (migration: process_missed_goal) *)

Module Database.
Import JsDate Schema.

(** The columns of [public.profiles] the trigger reads and writes. *)
Record Profile : Set := mkProfile {
  day_end_time : option TimeOfDay;
  ai_points : option Z
}.

(** [(date + time)::TIMESTAMP WITH TIME ZONE]: the wall-clock reading is
    taken in the session's time zone, [dbtz] minutes east of UTC. *)
Definition timestamptz (dbtz date : Z) (time : TimeOfDay) : Z :=
  MakeDate date (timeMs time) - dbtz * msPerMinute.

(** [DATE(ts AT TIME ZONE 'UTC')]. *)
Definition utc_date (ts : Z) : Z := Day ts.

Definition default_day_end : TimeOfDay := mkTime 23 59 0.

(** The deadline the trigger computes; [None] stands for the branch that
    returns at once ("No deadline set") and for a NULL deadline. *)
Definition goal_deadline (dbtz : Z) (user_day_end_time : option TimeOfDay)
    (NEW : Goal) : option Z :=
  match goal_type NEW with
  | daily =>
      option_map (timestamptz dbtz (utc_date (created_at NEW)))
                 user_day_end_time
  | long_term =>
      match due_date NEW with
      | Some d =>
          match due_time NEW with
          | Some t => Some (timestamptz dbtz d t)
          | None => option_map (timestamptz dbtz d) user_day_end_time
          end
      | None => None
      end
  end.

(** [process_missed_goal]: the BEFORE UPDATE trigger on [public.goals].
    [NOW] is the transaction's [NOW()], [profile] the user's profile row
    if there is one.  The result is the row that is written and the
    profile row after the trigger. *)
Definition process_missed_goal (dbtz NOW : Z) (profile : option Profile)
    (NEW : Goal) : Goal * option Profile :=
  (* Only process if goal is not completed *)
  if truthy (completed NEW) then (NEW, profile)
  else
    let user_day_end_time :=
      option_map (fun p => match day_end_time p with
                           | Some t => t
                           | None => default_day_end
                           end) profile in
    match goal_deadline dbtz user_day_end_time NEW with
    | None => (NEW, profile)
    | Some deadline =>
        (* Check if deadline has passed *)
        if (NOW >? deadline) &&
           (match completed NEW with Some false => true | _ => false end)
        then
          ({| id := id NEW;
              goal_type := goal_type NEW;
              due_date := due_date NEW;
              due_time := due_time NEW;
              completed := Some true;
              completed_at := Some NOW;
              points_earned := Some 0;
              ai_points_earned := Some 15;
              created_at := created_at NEW |},
           option_map
             (fun p => {| day_end_time := day_end_time p;
                          ai_points := Some (orZero (ai_points p) + 15) |})
             profile)
        else (NEW, profile)
    end.

End Database.

(** ** The earlier revision of the dashboard page

    The second [Dashboard.tsx] of the sources, which marks the missed goals
    itself and takes 23:59:59 as the end of every day. *)

Module DashboardEarlier.
Import Js JsDate Schema.

(** The callback of [goals.filter] in [handleMissedGoals]. *)
Definition missed (tz now : Z) (goal : Goal) : bool :=
  if truthy (completed goal) then false
  else
    match goal_type goal with
    | daily =>
        (* Check if it's past the day *)
        let createdDate := Num (created_at goal) in
        let createdDate :=
          setHours3 tz createdDate (Num 23) (Num 59) (Num 59) in
        gt (Num now) createdDate
    | long_term =>
        match due_date goal with
        | Some due_date =>
            let dueDate := parseDate due_date in
            let dueDate :=
              match due_time goal with
              | Some t => setHours2 tz dueDate (Num (hh t)) (Num (mm t))
              | None => setHours3 tz dueDate (Num 23) (Num 59) (Num 59)
              end in
            gt (Num now) dueDate
        | None => false
        end
    end.

(** Mark goals as missed (completed with 0 user points): the UPDATE sets
    [completed] and [ai_points_earned] only. *)
Definition markMissed (goal : Goal) : Goal :=
  {| id := id goal;
     goal_type := goal_type goal;
     due_date := due_date goal;
     due_time := due_time goal;
     completed := Some true;
     completed_at := completed_at goal;
     points_earned := points_earned goal;
     ai_points_earned := Some 15;
     created_at := created_at goal |}.

(** [handleMissedGoals]: the goals and the profile's [ai_points] after the
    sweep.  The UPDATE of each missed goal is keyed on its [id]; the rows
    are taken to have distinct ids, so that it reaches that goal alone. *)
Definition handleMissedGoals (tz now : Z) (ai_points : option Z)
    (goals : list Goal) : list Goal * option Z :=
  let missedGoals := filter (missed tz now) goals in
  match missedGoals with
  | [] => (goals, ai_points)
  | _ =>
      let totalAiPoints := Z.of_nat (List.length missedGoals) * 15 in
      (map (fun g => if missed tz now g then markMissed g else g) goals,
       Some (orZero ai_points + totalAiPoints))
  end.

End DashboardEarlier.

(** ** The operations as the specification words them

    Reference definitions, written from the specification's formulas, against
    which the hook's functions are compared. *)

Module Reference.
Import Js JsDate Schema GameLoop Dashboard.

(** Step function of the hours remaining. *)
Definition timeSubScore (hours : Q) : float :=
  (if Qltb hours 0.25 then 1
   else if Qltb hours 0.5 then 0.8
   else if Qltb hours 1 then 0.6
   else if Qltb hours 2 then 0.4
   else 0.2)%float.

(** Step function of the user's margin. *)
Definition scoreSubScore (margin : Z) : float :=
  (if (margin <? -20)%Z then 0.8
   else if (margin <? -10)%Z then 0.5
   else if (margin <? 0)%Z then 0.3
   else 0.1)%float.

Definition combined (t s : float) : float :=
  Math_min 1 (0.6 * t + 0.4 * s)%float.

(** Tiers, inclusive at their lower bounds. *)
Definition tier (v : float) : IntensityLevel :=
  if geb v 0.8 then critical
  else if geb v 0.5 then high
  else if geb v 0.3 then medium
  else low.

(** [computeIntensity(timeToBoundary, scoreState) -> (tier, value)], the
    duration in milliseconds. *)
Definition computeIntensity (timeToBoundary userPoints aiPoints : Z)
  : IntensityLevel * float :=
  let v := combined (timeSubScore (inject_Z timeToBoundary / 3600000)%Q)
                    (scoreSubScore (userPoints - aiPoints)) in
  (tier v, v).

(** The exact value of a finite double, and whether a double lies within
    [10^-15] of a decimal. *)
Definition exact (f : float) : option Q :=
  match Prim2SF f with
  | S754_zero _ => Some 0%Q
  | S754_finite s m e =>
      let sm := if s then Zneg m else Zpos m in
      Some (match e with
            | Z0 => inject_Z sm
            | Zpos p => inject_Z (sm * 2 ^ Zpos p)
            | Zneg p => sm # (2 ^ p)
            end)
  | _ => None
  end.

Definition near (f : float) (q : Q) : bool :=
  match exact f with
  | Some x => Qle_bool (Qabs (x - q)) (1 # 10 ^ 15)
  | None => false
  end.

(** The sixteen values of [0.6 * timeSubScore + 0.4 * scoreSubScore], in
    hundredths. *)
Definition hundredths : list Z :=
  [16; 24; 28; 32; 36; 40; 44; 48; 52; 56; 60; 64; 68; 72; 80; 92].

(** The share of the threat that comes from the user's deficit. *)
Definition scoreComponent (margin : Z) : Q :=
  if margin <? 0 then Qmin 1 (inject_Z (Z.abs margin) / 50)%Q else 0%Q.

(** [computeThreatLevel(timeToBoundary, scoreState)], with [dayLength] 24
    hours in milliseconds. *)
Definition computeThreatLevel (timeToBoundary userPoints aiPoints : Z) : Q :=
  let margin := userPoints - aiPoints in
  let timeComponent : Q := (1 - inject_Z timeToBoundary / 86400000)%Q in
  Qmin 1 (0.5 * timeComponent + 0.5 * scoreComponent margin)%Q.

(** The instant at which the clocks of the zone [tz] read [date] and
    [time], and the calendar date they read at the instant [t]. *)
Definition localInstant (tz date : Z) (time : TimeOfDay) : Z :=
  MakeDate date (timeMs time) - tz * msPerMinute.
Definition localDate (tz t : Z) : Z := Day (t + tz * msPerMinute).

(** The last second of a day. *)
Definition lastSecond : TimeOfDay := mkTime 23 59 59.

Inductive Outcome : Set := early | onTime | late | noDeadline.

(** [resolveCompletion(goal, completionInstant)]: the table of the
    specification, dates and times being those of the user's clock. *)
Definition resolveCompletion (tz completionInstant : Z) (goal : Goal)
  : Z * Z * Outcome :=
  match goal_type goal, due_time goal, due_date goal with
  | daily, Some t, _ =>
      if completionInstant
           <? localInstant tz (localDate tz completionInstant) t
      then (20, -5, early) else (5, 5, onTime)
  | daily, None, _ => (5, 5, onTime)
  | long_term, Some t, Some d =>
      if completionInstant <? localInstant tz d t
      then (20, -5, early) else (10, 0, onTime)
  | long_term, None, Some d =>
      if completionInstant <=? localInstant tz d lastSecond
      then (10, 0, onTime) else (5, 5, late)
  | long_term, _, None => (10, 0, noDeadline)
  end.

(** The outcome an award's message announces. *)
Definition outcomeOf (a : Award) : option Outcome :=
  let m := message a in
  if String.eqb m "Early completion! +20 points (AI loses 5)"
  then Some early
  else if String.eqb m "Task completed! +5 points (AI also gets +5)"
  then Some onTime
  else if String.eqb m "On-time completion! +10 points" then Some onTime
  else if String.eqb m "Goal achieved! +10 points" then Some onTime
  else if String.eqb m "Late completion! +5 points (AI gets +5)"
  then Some late
  else if String.eqb m "Goal completed! +10 points" then Some noDeadline
  else None.

(** The deadline of a goal for the sweep, [dayEndTime] being the
    configured end of day. *)
Definition deadline (tz : Z) (dayEndTime : TimeOfDay) (goal : Goal)
  : option Z :=
  match goal_type goal, due_date goal, due_time goal with
  | daily, _, _ =>
      Some (localInstant tz (localDate tz (created_at goal)) dayEndTime)
  | long_term, Some d, Some t => Some (localInstant tz d t)
  | long_term, Some d, None => Some (localInstant tz d dayEndTime)
  | long_term, None, _ => None
  end.

(** [resolveMissed(goal, now, dayEndTime) -> bool]. *)
Definition resolveMissed (tz now : Z) (dayEndTime : TimeOfDay) (goal : Goal)
  : bool :=
  negb (truthy (completed goal)) &&
  match deadline tz dayEndTime goal with
  | Some d => now >? d
  | None => false
  end.

(** The error taxonomy of the specification, and the two ways a call can
    end. *)
Inductive Error : Set :=
| InvalidConfiguration | PreconditionViolation | ClockSkew.

Inductive completion (A : Type) : Type :=
| Returned (a : A)
| Raised (e : Error).

Arguments Returned {A} a.
Arguments Raised {A} e.

(** A call of one of the embedded functions.  Their bodies hold no
    [throw] (no [RAISE] in the triggers) and the built-ins they use
    ([split], [map], [Number], [setHours], [getTime], [Math.max],
    comparisons) do not throw on the arguments they get: the call
    completes normally with the value the function computes. *)
Definition call {A : Type} (result : A) : completion A := Returned result.

(** An award read as the triple of the table, and a triple of the table
    with its outcome announced. *)
Definition points (a : Award) : Z * Z * option Outcome :=
  (userPoints a, aiPoints a, outcomeOf a).
Definition expected (r : Z * Z * Outcome) : Z * Z * option Outcome :=
  let '(u, a, o) := r in (u, a, Some o).

(** The row of a goal marked as missed at [NOW]. *)
Definition missedRow (NOW : Z) (g : Goal) : Goal :=
  {| id := id g;
     goal_type := goal_type g;
     due_date := due_date g;
     due_time := due_time g;
     completed := Some true;
     completed_at := Some NOW;
     points_earned := Some 0;
     ai_points_earned := Some 15;
     created_at := created_at g |}.

(** The configured end of day of a profile row. *)
Definition dayEndOf (p : Database.Profile) : TimeOfDay :=
  match Database.day_end_time p with
  | Some t => t
  | None => Database.default_day_end
  end.

(** The profile row after one 15-point award to the AI. *)
Definition awarded (p : Database.Profile) : Database.Profile :=
  {| Database.day_end_time := Database.day_end_time p;
     Database.ai_points := Some (orZero (Database.ai_points p) + 15) |}.

End Reference.

(** ** Sample rows *)

Module Samples.
Import JsDate Schema.

(** A long-term goal due on 2025-01-10 (day 20098), with no due time. *)
Definition dueFriday : Goal :=
  {| id := 1;
     goal_type := long_term;
     due_date := Some 20098;
     due_time := None;
     completed := Some false;
     completed_at := None;
     points_earned := Some 0;
     ai_points_earned := Some 0;
     created_at := 1736000000000 |}.

(** A long-term goal due on 2025-01-10 at 18:00. *)
Definition dueFridayEvening : Goal :=
  {| id := 2;
     goal_type := long_term;
     due_date := Some 20098;
     due_time := Some (mkTime 18 0 0);
     completed := Some false;
     completed_at := None;
     points_earned := Some 0;
     ai_points_earned := Some 0;
     created_at := 1736000000000 |}.

(** A daily goal due at 18:00. *)
Definition dailyAtSix : Goal :=
  {| id := 4;
     goal_type := daily;
     due_date := None;
     due_time := Some (mkTime 18 0 0);
     completed := Some false;
     completed_at := None;
     points_earned := Some 0;
     ai_points_earned := Some 0;
     created_at := 1736000000000 |}.

(** A long-term goal due on 2025-01-09, with no due time. *)
Definition dueThursday : Goal :=
  {| id := 5;
     goal_type := long_term;
     due_date := Some 20097;
     due_time := None;
     completed := Some false;
     completed_at := None;
     points_earned := Some 0;
     ai_points_earned := Some 0;
     created_at := 1736000000000 |}.

(** A daily goal already marked as missed. *)
Definition doneGoal : Goal :=
  {| id := 3;
     goal_type := daily;
     due_date := None;
     due_time := None;
     completed := Some true;
     completed_at := Some 1736000500000;
     points_earned := Some 0;
     ai_points_earned := Some 15;
     created_at := 1736000000000 |}.

(** 2025-01-10T17:00:00Z, noon in a zone five hours west of UTC. *)
Definition fridayNoonEST : Z := 1736528400000.

Definition profile40 : Database.Profile :=
  {| Database.day_end_time := Some (mkTime 23 59 0);
     Database.ai_points := Some 40 |}.

End Samples.

(** ** More of the game loop hook (hooks/useGameLoop.ts) *)

Module GameLoopState.
Import Js JsDate GameLoop.

(** A number inside a template literal: a whole number prints in decimal,
    [NaN] as "NaN". *)
Definition toString (n : number) : string :=
  match n with
  | Num z => NilZero.string_of_int (Z.to_int z)
  | NaN => "NaN"
  end.

(** [Math.floor(a / d)] and [a % d] for a positive whole divisor. *)
Definition floorDiv (a : number) (d : Z) : number :=
  match a with Num x => Num (x / d) | NaN => NaN end.
Definition remainder (a : number) (d : Z) : number :=
  match a with Num x => Num (Z.rem x d) | NaN => NaN end.

(** [formatTimeRemaining(ms)]. *)
Definition formatTimeRemaining (ms : number) : string :=
  if le ms (Num 0) then "0m"
  else
    let totalSeconds := floorDiv ms 1000 in
    let hours := floorDiv totalSeconds 3600 in
    let minutes := floorDiv (remainder totalSeconds 3600) 60 in
    let seconds := remainder totalSeconds 60 in
    if gt hours (Num 0) then toString hours ++ "h " ++ toString minutes ++ "m"
    else if gt minutes (Num 0)
    then toString minutes ++ "m " ++ toString seconds ++ "s"
    else toString seconds ++ "s".

Inductive Momentum : Set := user | ai | neutral.

(** The momentum of [useGameLoop]'s derived state: direction and strength,
    the strength as an exact rational. *)
Definition momentum (userPoints aiPoints : Z) : Momentum * Q :=
  let scoreDiff := userPoints - aiPoints in
  if scoreDiff >? 5 then (user, Qmin 1 (inject_Z scoreDiff / 30)%Q)
  else if scoreDiff <? -5
  then (ai, Qmin 1 (inject_Z (Z.abs scoreDiff) / 30)%Q)
  else (neutral, 0%Q).

(** The direction seen from the other side. *)
Definition opposite (d : Momentum) : Momentum :=
  match d with user => ai | ai => user | neutral => neutral end.

(** EOD progress (0 = start of day, 1 = end of day). *)
Definition eodProgress (timeToEOD : Z) : Q :=
  let totalDayMs := 24 * 60 * 60 * 1000 in
  (1 - inject_Z timeToEOD / inject_Z totalDayMs)%Q.

(** The cycle of the pulse and the interval of the beat counter, in
    milliseconds, as doubles. *)
Definition cycleDuration (intensityValue : float) : float :=
  (400 - intensityValue * 250)%float.
Definition beatInterval (intensityValue : float) : float :=
  (1000 - intensityValue * 700)%float.

(** The rank of a level, low to critical. *)
Definition levelRank (l : IntensityLevel) : Z :=
  match l with low => 0 | medium => 1 | high => 2 | critical => 3 end.

End GameLoopState.

(** ** The strategies (strategies/game) and the theme animations *)

Module Strategies.
Import GameStrategy.

Inductive ThemeType : Set := forest | coding | ninja | agent.

Record ThemeAnimations : Set := mkAnimations {
  userAnimation : string;
  aiAnimation : string;
  victoryAnimation : string;
  defeatAnimation : string
}.

(** [THEME_CONFIGS[theme].animations] (config/game/themes.config.ts). *)
Definition animations (theme : ThemeType) : ThemeAnimations :=
  match theme with
  | forest =>
      mkAnimations "animate-run" "animate-run"
                   "animate-victory-dance" "animate-defeat"
  | coding =>
      mkAnimations "animate-type" "animate-type"
                   "animate-victory-code" "animate-glitch"
  | ninja =>
      mkAnimations "animate-fight" "animate-fight"
                   "animate-victory-bow" "animate-fall"
  | agent =>
      mkAnimations "animate-aim" "animate-aim"
                   "animate-victory-salute" "animate-explosion"
  end.

(** A game state seen from the other side. *)
Definition swapSides (s : GameState) : GameState :=
  match s with
  | userWinning => aiWinning
  | aiWinning => userWinning
  | victory => defeat
  | defeat => victory
  | other => other
  end.

Definition isVictory (s : GameState) : bool :=
  match s with victory => true | _ => false end.
Definition isDefeat (s : GameState) : bool :=
  match s with defeat => true | _ => false end.

(** [DefaultGameStrategy.getAnimationClass]. *)
Definition getAnimationClass (state : GameState) (theme : ThemeType)
    (isUser : bool) : string :=
  let a := animations theme in
  if isVictory state && isUser then victoryAnimation a
  else if isDefeat state && negb isUser then victoryAnimation a
  else if isDefeat state && isUser then defeatAnimation a
  else if isVictory state && negb isUser then defeatAnimation a
  else if isUser then userAnimation a else aiAnimation a.

Record Movement : Set := mkMovement { x : list Z; y : list Z }.

(** [DefaultGameStrategy.calculateMovement]. *)
Definition calculateMovement (state : GameState) (isUser : bool) : Movement :=
  let baseMovement := mkMovement [0; 5; 0] [0; -5; 0] in
  match state with
  | victory =>
      if isUser then mkMovement [0; 0; 0] [0; -20; 0; -15; 0; -10; 0]
      else mkMovement [0; -10; 0] [0; 5; 0]
  | defeat =>
      if isUser then mkMovement [0; -10; 0] [0; 5; 0]
      else mkMovement [0; 0; 0] [0; -20; 0; -15; 0; -10; 0]
  | userWinning =>
      if isUser then mkMovement [0; 15; 0] [0; -8; 0]
      else mkMovement [5; 0; 5] [0; -4; 0]
  | aiWinning =>
      if isUser then mkMovement [0; -5; 0] [0; -4; 0]
      else mkMovement [-15; 0; -15] [0; -8; 0]
  | _ => baseMovement
  end.

(** [DefaultEffectsStrategy.getEffectCount]. *)
Definition getEffectCount (state : GameState) : Z :=
  if isVictory state || isDefeat state then 8 else 3.

(** [DefaultEffectsStrategy.shouldShowContinuousEffects]. *)
Definition shouldShowContinuousEffects (state : GameState) : bool :=
  match state with
  | victory | defeat | endOfDay => true
  | _ => false
  end.

End Strategies.

(** ** The scoring table (config/game/scoring.config.ts) *)

Module Scoring.
Import Schema.

Record Entry : Set := mkEntry {
  userPoints : Z;
  aiPoints : Z;
  message : string
}.

Inductive Key : Set :=
| earlyCompletion | onTimeCompletion | lateCompletion | noDeadline | missed.

(** [SCORING_CONFIG.daily[key]] and [SCORING_CONFIG.longTerm[key]]; a key
    the section does not have gives [None]. *)
Definition SCORING_CONFIG (section : GoalType) (key : Key) : option Entry :=
  match section, key with
  | daily, earlyCompletion =>
      Some (mkEntry 20 (-5) "Early completion! +20 points (AI loses 5)")
  | daily, onTimeCompletion =>
      Some (mkEntry 5 5 "Task completed! +5 points (AI also gets +5)")
  | daily, missed => Some (mkEntry 0 15 "Missed goal! AI gains 15 points")
  | daily, _ => None
  | long_term, earlyCompletion =>
      Some (mkEntry 20 (-5) "Early completion! +20 points (AI loses 5)")
  | long_term, onTimeCompletion =>
      Some (mkEntry 10 0 "On-time completion! +10 points")
  | long_term, lateCompletion =>
      Some (mkEntry 5 5 "Late completion! +5 points (AI gets +5)")
  | long_term, noDeadline => Some (mkEntry 10 0 "Goal completed! +10 points")
  | long_term, missed =>
      Some (mkEntry 0 15 "Missed goal! AI gains 15 points")
  end.

End Scoring.

(** ** What the dashboard writes and shows (pages/Dashboard.tsx) *)

Module DashboardState.
Import Js JsDate Schema Dashboard.

(** The columns of the profile the page reads and updates. *)
Record Profile : Set := mkProfile {
  total_points : option Z;
  ai_points : option Z
}.

(** The row [handleCompleteGoal] writes to [goals]. *)
Definition completedRow (now : Z) (award : Award) (goal : Goal) : Goal :=
  {| id := id goal;
     goal_type := goal_type goal;
     due_date := due_date goal;
     due_time := due_time goal;
     completed := Some true;
     completed_at := Some now;
     points_earned := Some (userPoints award);
     ai_points_earned := Some (aiPoints award);
     created_at := created_at goal |}.

(** The totals [handleCompleteGoal] writes to [profiles]. *)
Definition creditedProfile (profile : Profile) (award : Award) : Profile :=
  {| total_points := Some (orZero (total_points profile) + userPoints award);
     ai_points := Some (orZero (ai_points profile) + aiPoints award) |}.

(** [handleCompleteGoal] with its two writes, both succeeding. *)
Definition completeGoal (tz now : Z) (profile : Profile) (goal : Goal)
  : Goal * Profile :=
  let award := handleCompleteGoal tz now goal in
  (completedRow now award goal, creditedProfile profile award).

(** [goals.filter((g) => !g.completed)] and
    [goals.filter((g) => g.completed)]. *)
Definition activeGoals (goals : list Goal) : list Goal :=
  filter (fun g => negb (truthy (completed g))) goals.
Definition completedGoals (goals : list Goal) : list Goal :=
  filter (fun g => truthy (completed g)) goals.

(** Today's end of day on the local clock, for the hour and minute of the
    day end: the [endOfDay] date of [checkEndOfDay]. *)
Definition todayEnd (tz now hour minute : Z) : Z :=
  UTC tz (MakeDate (Day (LocalTime tz now)) (MakeTime hour minute 0 0)).

(** The [isActive] prop given to the arena. *)
Definition isActive (goals : list Goal) : bool :=
  (0 <? Z.of_nat (List.length (activeGoals goals))).

End DashboardState.

(** ** An UPDATE of a goal row, with its triggers (migrations) *)

Module GoalUpdate.
Import JsDate Schema Database.

(** [CURRENT_DATE] in a session [dbtz] minutes east of UTC. *)
Definition CURRENT_DATE (dbtz NOW : Z) : Z := Day (NOW + dbtz * msPerMinute).

(** One [UPDATE public.goals] of a row: the BEFORE trigger
    [process_missed_goal] shapes the row that is written, then the AFTER
    trigger [update_streak_on_goal_complete] sees the old row and the
    written one.  [profile] holds the missed-goal columns of the user's
    profile row and [streaks] its streak columns. *)
Definition update_goal (dbtz NOW : Z) (profile : option Profile)
    (streaks : option Streak.Profile) (OLD NEW : Goal)
  : Goal * option Profile * option Streak.Profile :=
  let '(written, profile') := process_missed_goal dbtz NOW profile NEW in
  (written, profile',
   Streak.update_streak_on_goal_complete (CURRENT_DATE dbtz NOW)
     (completed OLD) (completed written) streaks).

(** The deadline test of [check_all_overdue_goals] on a row of its query,
    which keeps the rows with [completed = false]. *)
Definition overdue (dbtz NOW : Z) (profile : Profile) (g : Goal) : bool :=
  match completed g with
  | Some false =>
      let user_day_end_time :=
        match day_end_time profile with
        | Some t => t
        | None => default_day_end
        end in
      match goal_deadline dbtz (Some user_day_end_time) g with
      | Some d => NOW >? d
      | None => false
      end
  | _ => false
  end.

(** How many of the goals are overdue. *)
Definition overdueCount (dbtz NOW : Z) (profile : Profile)
    (goals : list Goal) : Z :=
  Z.of_nat (List.length (filter (overdue dbtz NOW profile) goals)).

(** [check_all_overdue_goals()] over the goals of one user who has a
    profile row: the loop marks each overdue goal and adds 15 to the AI
    total.  The result is the goals and the missed-goal columns of the
    profile after the loop. *)
Fixpoint check_all_overdue_goals (dbtz NOW : Z) (profile : Profile)
    (goals : list Goal) : list Goal * Profile :=
  match goals with
  | [] => ([], profile)
  | g :: rest =>
      if overdue dbtz NOW profile g then
        let marked :=
          {| id := id g;
             goal_type := goal_type g;
             due_date := due_date g;
             due_time := due_time g;
             completed := Some true;
             completed_at := Some NOW;
             points_earned := Some 0;
             ai_points_earned := Some 15;
             created_at := created_at g |} in
        let profile' :=
          {| day_end_time := day_end_time profile;
             ai_points := Some (orZero (ai_points profile) + 15) |} in
        let '(rest', final) :=
          check_all_overdue_goals dbtz NOW profile' rest in
        (marked :: rest', final)
      else
        let '(rest', final) :=
          check_all_overdue_goals dbtz NOW profile rest in
        (g :: rest', final)
  end.

End GoalUpdate.

(** ** The streak badge (components/game/StreakBadge.tsx) *)

Module StreakBadge.

Inductive StreakTier : Set := none | bronze | silver | gold | legendary.

(** [getStreakTier(streak)]. *)
Definition getStreakTier (streak : Z) : StreakTier :=
  if streak >=? 30 then legendary
  else if streak >=? 14 then gold
  else if streak >=? 7 then silver
  else if streak >=? 3 then bronze
  else none.

Definition tierRank (t : StreakTier) : Z :=
  match t with
  | none => 0 | bronze => 1 | silver => 2 | gold => 3 | legendary => 4
  end.

End StreakBadge.

(** ** [Number] and [Date] in full (ECMAScript, clauses 7.1.4 and 21.4)

    The conversion [Number(s)] on any string, and the operations of [Date]
    in a time zone whose offset may change, with time values clipped to the
    range of [Date].  A string is the sequence of its code units, each
    below 256.  [Js.Number] and the operations of [JsDate] above are these
    on fields of digits, in a zone of constant offset, inside the range. *)

Module Ecma.
Import Js JsDate.

Definition codeUnit (c : ascii) : Z := Z.of_nat (nat_of_ascii c).

(** [StrWhiteSpaceChar]: TAB, LF, VT, FF, CR, SP and NBSP are the white
    space and line terminators below 256. *)
Definition isStrWhiteSpaceChar (c : ascii) : bool :=
  let n := codeUnit c in
  (n =? 9) || (n =? 10) || (n =? 11) || (n =? 12) || (n =? 13)
  || (n =? 32) || (n =? 160).

Fixpoint dropWhiteSpace (cs : list ascii) : list ascii :=
  match cs with
  | c :: rest => if isStrWhiteSpaceChar c then dropWhiteSpace rest else cs
  | [] => []
  end.

(** The text between the leading and the trailing [StrWhiteSpace]. *)
Definition trim (cs : list ascii) : list ascii :=
  rev (dropWhiteSpace (rev (dropWhiteSpace cs))).

(** The value of a digit in a radix up to 16, letters in either case. *)
Definition digitOf (radix : Z) (c : ascii) : option Z :=
  let n := codeUnit c in
  let v :=
    if (48 <=? n) && (n <=? 57) then n - 48
    else if (97 <=? n) && (n <=? 102) then n - 87
    else if (65 <=? n) && (n <=? 70) then n - 55
    else radix in
  if v <? radix then Some v else None.

Fixpoint digitsOf (radix acc : Z) (cs : list ascii) : option Z :=
  match cs with
  | [] => Some acc
  | c :: rest =>
      match digitOf radix c with
      | Some d => digitsOf radix (acc * radix + d) rest
      | None => None
      end
  end.

(** One digit or more, and nothing else. *)
Definition integerLiteral (radix : Z) (cs : list ascii) : option Z :=
  match cs with
  | [] => None
  | _ => digitsOf radix 0 cs
  end.

(** The longest prefix of decimal digits, and what follows it. *)
Fixpoint decimalDigits (cs : list ascii) : list ascii * list ascii :=
  match cs with
  | c :: rest =>
      match digitOf 10 c with
      | Some _ => let (ds, r) := decimalDigits rest in (c :: ds, r)
      | None => ([], cs)
      end
  | [] => ([], [])
  end.

Definition isChar (c : ascii) (s : string) : bool :=
  existsb (Ascii.eqb c) (list_ascii_of_string s).

(** [NonDecimalIntegerLiteral]: [0x], [0o] or [0b] and digits; it takes no
    sign. *)
Definition nonDecimalIntegerLiteral (cs : list ascii) : option Z :=
  match cs with
  | z :: p :: ds =>
      if Ascii.eqb z "0" then
        if isChar p "xX" then integerLiteral 16 ds
        else if isChar p "oO" then integerLiteral 8 ds
        else if isChar p "bB" then integerLiteral 2 ds
        else None
      else None
  | _ => None
  end.

(** [ExponentPart], when there is one: [e] or [E], a sign or none, and
    digits. *)
Definition exponentPart (cs : list ascii) : option Z :=
  match cs with
  | [] => Some 0
  | c :: rest =>
      if isChar c "eE" then
        match rest with
        | s :: ds =>
            if Ascii.eqb s "+" then integerLiteral 10 ds
            else if Ascii.eqb s "-"
            then option_map Z.opp (integerLiteral 10 ds)
            else integerLiteral 10 rest
        | [] => None
        end
      else None
  end.

(** What a [StrUnsignedDecimalLiteral] denotes: infinity, or
    [mantissa * 10 ^ exponent]. *)
Inductive Literal : Set :=
| LitInfinity
| LitDecimal (mantissa exponent : Z).

(** [StrUnsignedDecimalLiteral]: [Infinity], digits with an optional
    fraction, or a fraction alone, and an optional exponent. *)
Definition strUnsignedDecimalLiteral (cs : list ascii) : option Literal :=
  if String.eqb (string_of_list_ascii cs) "Infinity" then Some LitInfinity
  else
    let (int, r1) := decimalDigits cs in
    match r1 with
    | c :: r2 =>
        if Ascii.eqb c "." then
          let (frac, r3) := decimalDigits r2 in
          match (int ++ frac)%list with
          | [] => None
          | ds =>
              match digitsOf 10 0 ds, exponentPart r3 with
              | Some m, Some e =>
                  Some (LitDecimal m (e - Z.of_nat (List.length frac)))
              | _, _ => None
              end
          end
        else
          match integerLiteral 10 int, exponentPart r1 with
          | Some m, Some e => Some (LitDecimal m e)
          | _, _ => None
          end
    | [] => option_map (fun m => LitDecimal m 0) (integerLiteral 10 int)
    end.

(** The double nearest to [mantissa * 10 ^ exponent], ties to the even
    significand, by the rounding of the Standard Library's specification of
    IEEE 754.  (For a literal of more than 20 significant digits the
    standard lets an engine round from the first 20; the engines round
    the whole literal, as here.) *)
Definition roundDecimal (negative : bool) (mantissa exponent : Z) : float :=
  match mantissa with
  | Zpos m =>
      SF2Prim
        (if 0 <=? exponent
         then binary_normalize prec emax
                ((if negative then Zneg m else Zpos m) * 10 ^ exponent)
                0 false
         else SFdiv prec emax (S754_finite negative m 0)
                (S754_finite false (Z.to_pos (10 ^ (- exponent))) 0))
  | _ => if negative then neg_zero else zero
  end.

Definition strDecimalLiteral (negative : bool) (cs : list ascii) : float :=
  match strUnsignedDecimalLiteral cs with
  | Some LitInfinity => if negative then neg_infinity else infinity
  | Some (LitDecimal m e) => roundDecimal negative m e
  | None => nan
  end.

(** [Number(s)] on a string ([StringToNumber]): white space alone is 0,
    a [StrNumericLiteral] between white space is its value, any other text
    is [NaN]. *)
Definition Number (s : string) : float :=
  match trim (list_ascii_of_string s) with
  | [] => zero
  | (c :: rest) as cs =>
      match nonDecimalIntegerLiteral cs with
      | Some n => SF2Prim (binary_normalize prec emax n 0 false)
      | None =>
          if Ascii.eqb c "+" then strDecimalLiteral false rest
          else if Ascii.eqb c "-" then strDecimalLiteral true rest
          else strDecimalLiteral false cs
      end
  end.

(** [ToIntegerOrInfinity] of a finite number, which truncates it; [None]
    for [NaN] and the infinities, on which [MakeTime] gives [NaN]. *)
Definition integerOf (f : float) : option Z :=
  match Prim2SF f with
  | S754_zero _ => Some 0
  | S754_finite s m e =>
      let v :=
        match e with
        | Zneg p => Zpos m / 2 ^ Zpos p
        | _ => Zpos m * 2 ^ e
        end in
      Some (if s then - v else v)
  | S754_infinity _ | S754_nan => None
  end.

(** Array destructuring [const [a, b] = xs]: a missing element is
    [undefined], which [setHours] converts to [NaN]. *)
Definition element (i : nat) (xs : list float) : float := nth i xs nan.

(** The nearest double to a whole number, ties to the even significand:
    the whole number itself up to [2^53], [None] for an infinity. *)
Definition roundInt (x : Z) : option Z :=
  let a := Z.abs x in
  if a <=? 2 ^ 53 then Some x
  else
    let e := Z.log2 a - 52 in
    let q := a / 2 ^ e in
    let r := a mod 2 ^ e in
    let half := 2 ^ (e - 1) in
    let q' :=
      if r <? half then q
      else if half <? r then q + 1
      else if Z.even q then q else q + 1 in
    let v := q' * 2 ^ e in
    if v <? 2 ^ 1024 then Some (Z.sgn x * v) else None.

(** The same rounding by the Standard Library's specification of IEEE
    754, to compare [roundInt] with. *)
Definition roundIEEE (x : Z) : option Z :=
  match binary_normalize prec emax x 0 false with
  | S754_zero _ => Some 0
  | S754_finite s m e =>
      let v :=
        match e with
        | Zneg p => Zpos m / 2 ^ Zpos p
        | _ => Zpos m * 2 ^ e
        end in
      Some (if s then - v else v)
  | S754_infinity _ | S754_nan => None
  end.

(** [*] and [+] on doubles that are whole numbers; [None] is a result that
    is not finite, which no further [+] makes finite again. *)
Definition mul (a b : option Z) : option Z :=
  match a, b with
  | Some x, Some y => roundInt (x * y)
  | _, _ => None
  end.

Definition add (a b : option Z) : option Z :=
  match a, b with
  | Some x, Some y => roundInt (x + y)
  | _, _ => None
  end.

(** [a - b] on time values. *)
Definition sub (a b : number) : number :=
  match a, b with
  | Num x, Num y =>
      match roundInt (x - y) with
      | Some v => Num v
      | None => NaN
      end
  | _, _ => NaN
  end.

(** The largest time value of a [Date]. *)
Definition maxTime : Z := 8640000000000000.

(** A time zone.  [LocalTZA t true] is the offset of local time from UTC,
    in milliseconds, at the instant [t]; [LocalTZA t false] is the offset
    at the local time value [t], the one before the transition when a clock
    change skips or repeats that local time.  An offset is less than a day
    in size. *)
Record Zone : Type := mkZone {
  LocalTZA : Z -> bool -> Z;
  LocalTZA_bound : forall t isUTC, Z.abs (LocalTZA t isUTC) < msPerDay
}.

Definition LocalTime (z : Zone) (t : Z) : Z := t + LocalTZA z t true.
Definition UTC (z : Zone) (t : Z) : Z := t - LocalTZA z t false.

(** [MakeTime(hour, min, sec, ms)]: not finite as soon as an argument is
    not; the arguments are truncated and the sum is taken in double
    arithmetic. *)
Definition MakeTime (hour min sec ms : float) : option Z :=
  match integerOf hour, integerOf min, integerOf sec, integerOf ms with
  | Some h, Some m, Some s, Some milli =>
      add (add (add (mul (Some h) (Some msPerHour))
                    (mul (Some m) (Some msPerMinute)))
               (mul (Some s) (Some msPerSecond)))
          (Some milli)
  | _, _, _, _ => None
  end.

(** [MakeDate(day, time)]. *)
Definition MakeDate (day : Z) (time : option Z) : option Z :=
  add (mul (Some day) (Some msPerDay)) time.

(** [TimeClip(time)]: the invalid date outside the range of [Date].  (The
    subtraction of [UTC] is exact up to [2^53], past the range.) *)
Definition TimeClip (time : option Z) : number :=
  match time with
  | Some t => if Z.abs t <=? maxTime then Num t else NaN
  | None => NaN
  end.

(** [d.setHours(hour, min, sec, ms)]: the local calendar day of [d] is
    kept and its time within the day replaced. *)
Definition setHours (z : Zone) (d : number) (hour min sec ms : float)
  : number :=
  match d with
  | Num t =>
      let t := LocalTime z t in
      let date := MakeDate (Day t) (MakeTime hour min sec ms) in
      TimeClip (option_map (UTC z) date)
  | NaN => NaN
  end.

(** [d.setDate(d.getDate() + n)]: the local calendar day [n] days on, at
    the local time of day of [d]. *)
Definition addDays (z : Zone) (d : number) (n : Z) : number :=
  match d with
  | Num t =>
      let t := LocalTime z t in
      let newDate := MakeDate (Day t + n) (Some (TimeWithinDay t)) in
      TimeClip (option_map (UTC z) newDate)
  | NaN => NaN
  end.

End Ecma.

(** ** The countdown of the game loop, on any setting and in any zone *)

Module Countdown.
Import Js JsDate Ecma.

(** [calculateTimeToEOD(dayEndTime, timezone)]: milliseconds until the end
    of day, in a browser whose time zone is [z].  [now] is the instant
    both [new Date()] calls read; the [timezone] argument is never used by
    the body and is left out. *)
Definition calculateTimeToEOD (z : Zone) (now : Z) (dayEndTime : string)
  : number :=
  let fields := map Number (split ":" dayEndTime) in
  let hours := element 0 fields in
  let minutes := element 1 fields in
  let eod := setHours z (Num now) hours minutes 0 0 in
  (* If EOD has passed, it's for tomorrow *)
  let eod := if le eod (Num now) then addDays z eod 1 else eod in
  Math_max (Num 0) (sub eod (Num now)).

(** The instant at which the clocks of the zone read [hour]:[minute] on
    the local calendar day of [now]. *)
Definition todayEnd (z : Zone) (now hour minute : Z) : Z :=
  UTC z (Day (LocalTime z now) * msPerDay
         + (hour * msPerHour + minute * msPerMinute)).

(** The instant at which they read, on the next calendar day, the time of
    day they read at [t]. *)
Definition nextDay (z : Zone) (t : Z) : Z :=
  let l := LocalTime z t in
  UTC z ((Day l + 1) * msPerDay + TimeWithinDay l).

(** The boundary as the specification words it: the end-of-day instant,
    rolled to the next calendar day when it is not after [now]. *)
Definition boundaryInstant (z : Zone) (now hour minute : Z) : Z :=
  let eod := todayEnd z now hour minute in
  if eod <=? now then nextDay z eod else eod.

(** [computeTimeToBoundary(now, boundary)] of the specification. *)
Definition computeTimeToBoundary (now boundary : Z) : Z :=
  Z.max 0 (boundary - now).

(** The clock of the zone does not change within two days of [now]: its
    offset is [c] throughout. *)
Definition steady (z : Zone) (c now : Z) : Prop :=
  forall t isUTC,
    now - 2 * msPerDay <= t <= now + 2 * msPerDay -> LocalTZA z t isUTC = c.

(** UTC as a zone. *)
Definition utc : Zone :=
  {| LocalTZA := fun _ _ => 0; LocalTZA_bound := fun _ _ => eq_refl |}.

(** The clock of New York in 2025: five hours behind UTC, four from
    2025-03-09T07:00Z (02:00 becomes 03:00) to 2025-11-02T06:00Z (02:00
    becomes 01:00 again). *)
Definition newYorkOffset (t : Z) (isUTC : bool) : Z :=
  let est := -5 * msPerHour in
  let edt := -4 * msPerHour in
  if isUTC then
    if t <? 1741503600000 then est
    else if t <? 1762063200000 then edt
    else est
  else
    if t <? 1741489200000 then est
    else if t <? 1762048800000 then edt
    else est.

Definition newYork2025 : Zone :=
  {| LocalTZA := newYorkOffset;
     LocalTZA_bound :=
       fun t isUTC =>
         match isUTC as b
               return Z.abs (newYorkOffset t b) < msPerDay with
         | true =>
             match t <? 1741503600000 as c1, t <? 1762063200000 as c2
                   return Z.abs (if c1 then -5 * msPerHour
                                 else if c2 then -4 * msPerHour
                                 else -5 * msPerHour) < msPerDay with
             | true, _ => eq_refl
             | false, true => eq_refl
             | false, false => eq_refl
             end
         | false =>
             match t <? 1741489200000 as c1, t <? 1762048800000 as c2
                   return Z.abs (if c1 then -5 * msPerHour
                                 else if c2 then -4 * msPerHour
                                 else -5 * msPerHour) < msPerDay with
             | true, _ => eq_refl
             | false, true => eq_refl
             | false, false => eq_refl
             end
         end |}.

End Countdown.

(** * Properties *)

Import GameStrategy.

(** C4. [classify] ([getGameState]) on integer scores: at end of day it is
    victory when the user leads, defeat when the AI leads and endOfDay on
    equal scores; otherwise userWinning, aiWinning and tied respectively.
    In particular 40 against 70 at end of day is defeat.  Being a function,
    equal inputs give equal states. *)
Theorem getGameState_table :
  (forall u a : Z,
      (u > a -> getGameState u a true = victory) /\
      (a > u -> getGameState u a true = defeat) /\
      (u = a -> getGameState u a true = endOfDay) /\
      (u > a -> getGameState u a false = userWinning) /\
      (a > u -> getGameState u a false = aiWinning) /\
      (u = a -> getGameState u a false = tied)) /\
  getGameState 40 70 true = defeat /\
  (forall u a u' a' e e',
      u = u' -> a = a' -> e = e' ->
      getGameState u a e = getGameState u' a' e').
Proof.
  split; [| split; [reflexivity | intros; subst; reflexivity]].
  intros u a; unfold getGameState.
  repeat split; intros H;
    destruct (Z.gtb_spec u a); destruct (Z.gtb_spec a u);
    try reflexivity; lia.
Qed.

(** ** Streaks *)

Import Streak.

(** C9. [resolveStreak] (the streak trigger) on a goal completion, that is
    an update that turns [completed] from false or NULL to true, for a user
    with a profile row: a last completion yesterday increments the current
    streak and raises the longest to the maximum of itself and the new
    current; a last completion today changes nothing; any other last date,
    or none, resets the current streak to 1 and raises the longest to
    [max(longest, 1)].  A current streak of 4 with last completion yesterday
    becomes 5, with a longest streak of at least 5.  NULL counters count as
    0. *)
Theorem update_streak_on_goal_complete_cases :
  (forall today old p,
      old = Some false \/ old = None ->
      let cur := COALESCE (current_streak p) 0 in
      let lng := COALESCE (longest_streak p) 0 in
      exists p',
        update_streak_on_goal_complete today old (Some true) (Some p)
        = Some p' /\
        (last_goal_date p = Some (today - 1) ->
         current_streak p' = Some (cur + 1) /\
         longest_streak p' = Some (Z.max lng (cur + 1))) /\
        (last_goal_date p = Some today -> p' = p) /\
        (last_goal_date p <> Some (today - 1) ->
         last_goal_date p <> Some today ->
         current_streak p' = Some 1 /\
         longest_streak p' = Some (Z.max lng 1))) /\
  (forall today old lng,
      old = Some false \/ old = None ->
      exists p',
        update_streak_on_goal_complete today old (Some true)
          (Some (mkProfile (Some 4) lng (Some (today - 1)))) = Some p' /\
        current_streak p' = Some 5 /\
        longest_streak p' = Some (Z.max (COALESCE lng 0) 5) /\
        5 <= Z.max (COALESCE lng 0) 5).
Proof.
  split.
  - intros today old p Hold cur lng.
    exists (streak_update today p). split.
    + destruct Hold; subst; reflexivity.
    + unfold streak_update, date_eq, GREATEST. subst cur lng.
      destruct (last_goal_date p) as [d|].
      * destruct (Z.eqb_spec d (today - 1)); destruct (Z.eqb_spec d today);
          cbn; repeat split; intros; subst;
          solve [ reflexivity | congruence | lia | exfalso; congruence ].
      * cbn. repeat split; intros; congruence.
  - intros today old lng Hold.
    exists (streak_update today (mkProfile (Some 4) lng (Some (today - 1)))).
    split; [destruct Hold; subst; reflexivity|].
    unfold streak_update, date_eq; cbn. rewrite Z.eqb_refl. cbn.
    split; [reflexivity|]. split; [reflexivity | lia].
Qed.

(** ** Intensity *)

Import Js JsDate Schema GameLoop Reference.

Lemma hours_thresholds (t : Z) :
  let h := (inject_Z t / inject_Z 3600000)%Q in
  Qltb h 0.25 = (t <? 900000) /\ Qltb h 0.5 = (t <? 1800000) /\
  Qltb h 1 = (t <? 3600000) /\ Qltb h 2 = (t <? 7200000).
Proof.
  cbv zeta. unfold Qltb, Qle_bool; cbn.
  repeat split;
    match goal with
    | |- negb (?a <=? ?b) = (?c <? ?d) =>
        destruct (Z.leb_spec a b); destruct (Z.ltb_spec c d);
        try reflexivity; lia
    end.
Qed.

(** The five bands of the time left and the four bands of the margin. *)
Ltac intensity_cases t u a :=
  change (inject_Z (1000 * 60 * 60)) with (inject_Z 3600000);
  change (3600000%Q) with (inject_Z 3600000);
  destruct (hours_thresholds t) as (-> & -> & -> & ->);
  destruct (t <? 900000);
    [| destruct (t <? 1800000);
       [| destruct (t <? 3600000); [| destruct (t <? 7200000)]]];
  (destruct (u - a <? -20);
    [| destruct (u - a <? -10); [| destruct (u - a <? 0)]]).

(** C5. [calculateIntensity] equals the reference [computeIntensity] (step
    function of the hours left, step function of the margin,
    [min(1, 0.6 * time + 0.4 * score)], tiers from the value) for every time
    left and all integer scores, the non-negative times among them; a value
    equal to a threshold is in the higher tier; ten minutes left on equal
    scores give the value 0.64 and the tier high.  Values are doubles, with
    the operations of the source. *)
Theorem calculateIntensity_refines :
  (forall t u a,
      (level (calculateIntensity t u a), value (calculateIntensity t u a))
      = computeIntensity t u a) /\
  (tier 0.8 = critical /\ tier 0.5 = high /\ tier 0.3 = medium) /\
  (forall u,
      calculateIntensity (10 * 60 * 1000) u u
      = {| level := high; value := 0.64 |}).
Proof.
  split; [| split; [repeat split |]].
  - intros t u a.
    unfold calculateIntensity, computeIntensity, combined, timeSubScore,
      scoreSubScore, tier; cbv zeta.
    intensity_cases t u a; reflexivity.
  - intros u. unfold calculateIntensity; cbv zeta.
    rewrite Z.sub_diag. reflexivity.
Qed.

(** C10. The intensity value always lies between 0.16 and 0.92 (as doubles
    compare), it is the weighted sum itself, the clamp at 1 changing
    nothing, and it is, up to the rounding of doubles, one of the sixteen
    decimals the sub-scores combine to.  The maximum 0.92 is reached and is
    critical, the minimum 0.16 is reached and is low. *)
Theorem intensity_value_range :
  (forall t u a,
      let v := value (calculateIntensity t u a) in
      (0.16 <=? v)%float = true /\ (v <=? 0.92)%float = true /\
      v = (timeSubScore (inject_Z t / 3600000)%Q * 0.6
           + scoreSubScore (u - a) * 0.4)%float /\
      existsb (fun k => near v (k # 100)) hundredths = true) /\
  calculateIntensity 0 0 21 = {| level := critical; value := 0.92 |} /\
  calculateIntensity 7200000 0 0 = {| level := low; value := 0.16 |}.
Proof.
  split; [| split; reflexivity].
  intros t u a.
  unfold calculateIntensity, timeSubScore, scoreSubScore; cbv zeta.
  intensity_cases t u a; vm_compute; repeat split.
Qed.

(** ** Threat level *)

Lemma threatLevel_unfold t u a :
  threatLevel t u a =
  Qmin 1 ((1 - inject_Z t / 86400000) * 0.5 + scoreComponent (u - a) * 0.5)%Q.
Proof. reflexivity. Qed.

Lemma Qdiv_le_const (x y c : Q) :
  (0 < c)%Q -> (x <= y)%Q -> (x / c <= y / c)%Q.
Proof.
  intros Hc H. unfold Qdiv. apply Qmult_le_compat_r; [exact H|].
  apply Qlt_le_weak, Qinv_lt_0_compat, Hc.
Qed.

Lemma inject_Z_le (x y : Z) : x <= y -> (inject_Z x <= inject_Z y)%Q.
Proof. intros H. rewrite <- Zle_Qle. exact H. Qed.

Lemma scoreComponent_antitone d1 d2 :
  d1 <= d2 -> (scoreComponent d2 <= scoreComponent d1)%Q.
Proof.
  intros H. unfold scoreComponent.
  destruct (Z.ltb_spec d2 0); destruct (Z.ltb_spec d1 0); try lia.
  - apply Q.min_le_compat_l, Qdiv_le_const; [reflexivity|].
    apply inject_Z_le; lia.
  - apply Q.min_glb; [discriminate|].
    apply Qle_trans with (inject_Z 0 / 50)%Q; [discriminate|].
    apply Qdiv_le_const; [reflexivity|].
    apply inject_Z_le; lia.
  - apply Qle_refl.
Qed.

(** C6, as the code has it.  The threat level is the reference formula
    [min(1, 0.5 * (1 - t / 24h) + 0.5 * scoreComponent)]; it does not
    decrease as the time left shrinks, nor as the margin falls; and when the
    user is ahead or tied the score component is zero, so that the threat
    level is the time component alone, [min(1, 0.5 * (1 - t / 24h))]. *)
Theorem threatLevel_formula_monotone :
  (forall t u a, (threatLevel t u a == computeThreatLevel t u a)%Q) /\
  (forall t t' u a, t' <= t -> (threatLevel t u a <= threatLevel t' u a)%Q) /\
  (forall t u a u' a',
      u' - a' <= u - a -> (threatLevel t u a <= threatLevel t u' a')%Q) /\
  (forall t u a,
      a <= u ->
      scoreComponent (u - a) = 0%Q /\
      (threatLevel t u a == Qmin 1 (0.5 * (1 - inject_Z t / 86400000)))%Q).
Proof.
  repeat split.
  - intros t u a. unfold threatLevel, computeThreatLevel; cbv zeta.
    change (inject_Z (24 * 60 * 60 * 1000)) with (86400000%Q).
    apply Q.min_compat; [reflexivity|].
    fold (scoreComponent (u - a)). ring.
  - intros t t' u a H. rewrite !threatLevel_unfold.
    apply Q.min_le_compat_l.
    pose proof (Qdiv_le_const _ _ 86400000 eq_refl (inject_Z_le _ _ H)).
    lra.
  - intros t u a u' a' H. rewrite !threatLevel_unfold.
    apply Q.min_le_compat_l.
    pose proof (scoreComponent_antitone _ _ H). lra.
  - unfold scoreComponent. destruct (Z.ltb_spec (u - a) 0); [lia|reflexivity].
  - rewrite threatLevel_unfold.
    unfold scoreComponent. destruct (Z.ltb_spec (u - a) 0); [lia|].
    apply Q.min_compat; [reflexivity|]. ring.
Qed.

(** C6 as stated fails: with twelve hours left and equal scores the threat
    level is a quarter, not zero. *)
Lemma threatLevel_tied_not_zero :
  (threatLevel 43200000 30 30 == 1 # 4)%Q /\
  ~ (threatLevel 43200000 30 30 == 0)%Q.
Proof. split; vm_compute; [reflexivity | discriminate]. Qed.

(** ** A day on, in a zone of constant offset *)

Lemma addDays_shift tz t n :
  addDays tz (Num t) n = Num (t + n * msPerDay).
Proof.
  unfold addDays, UTC, LocalTime, MakeDate, Day, TimeWithinDay. f_equal.
  pose proof (Z.div_mod (t + tz * msPerMinute) msPerDay ltac:(discriminate)).
  lia.
Qed.

(** ** Completion awards *)

Import Dashboard Samples.

Lemma Day_MakeDate d x : 0 <= x < msPerDay -> Day (MakeDate d x) = d.
Proof.
  intros H. unfold Day, MakeDate.
  pose proof (Z.div_mod (d * msPerDay + x) msPerDay ltac:(discriminate)).
  pose proof (Z.mod_pos_bound (d * msPerDay + x) msPerDay ltac:(reflexivity)).
  unfold msPerDay in *. nia.
Qed.

(** East of Greenwich (and in UTC) the local day that holds the UTC
    midnight of a date is that date. *)
Lemma LocalTime_parseDate tz d :
  0 <= tz < 1440 ->
  Day (LocalTime tz (MakeDate d 0)) = d /\
  msFromTime (LocalTime tz (MakeDate d 0)) = 0.
Proof.
  intros H. unfold LocalTime.
  replace (MakeDate d 0 + tz * msPerMinute)
    with (MakeDate d (tz * msPerMinute)) by (unfold MakeDate; lia).
  split.
  - apply Day_MakeDate. unfold msPerMinute, msPerDay; lia.
  - unfold msFromTime, MakeDate, msPerDay, msPerMinute, msPerSecond.
    replace (d * 86400000 + tz * 60000)
      with ((d * 86400 + tz * 60) * 1000) by lia.
    apply Z.mod_mul; discriminate.
Qed.

Lemma setHours_parseDate tz d h m :
  0 <= tz < 1440 ->
  setHours tz (parseDate d) (Num h) (Num m) (Num 0) (Num 0)
  = Num (localInstant tz d (mkTime h m 0)).
Proof.
  intros H. unfold parseDate, setHours.
  destruct (LocalTime_parseDate tz d H) as [-> _]. reflexivity.
Qed.

Lemma setHours3_parseDate tz d :
  0 <= tz < 1440 ->
  setHours3 tz (parseDate d) (Num 23) (Num 59) (Num 59)
  = Num (localInstant tz d lastSecond).
Proof.
  intros H. unfold setHours3, parseDate, setHours.
  destruct (LocalTime_parseDate tz d H) as [-> ->]. reflexivity.
Qed.

(** Where the code and the table agree: for a daily goal whenever the UTC
    date of the completion instant is the user's date, for a long-term goal
    in every zone at or east of UTC. *)
Lemma handleCompleteGoal_table tz now g :
  (goal_type g = daily -> localDate tz now = toISODate now) ->
  (goal_type g = long_term -> 0 <= tz < 1440) ->
  points (handleCompleteGoal tz now g) = expected (resolveCompletion tz now g).
Proof.
  intros Hd Hl. unfold handleCompleteGoal, resolveCompletion, points, expected.
  destruct (goal_type g) eqn:Et.
  - rewrite (Hd eq_refl).
    destruct (due_date g), (due_time g); cbn [lt parseDateTime];
      unfold localInstant, UTC;
      repeat match goal with
             | |- context [if ?c then _ else _] => destruct c
             end; reflexivity.
  - specialize (Hl eq_refl).
    destruct (due_date g) as [d|], (due_time g) as [t|]; try reflexivity.
    + cbn [lt parseDateTime]. unfold localInstant, UTC.
      destruct (_ <? _); reflexivity.
    + rewrite setHours3_parseDate by assumption. cbn [le].
      destruct (_ <=? _); reflexivity.
Qed.

(** In a browser on UTC the whole table of [resolveCompletion] holds, for
    every goal and completion instant. *)
Lemma handleCompleteGoal_table_UTC now g :
  points (handleCompleteGoal 0 now g) = expected (resolveCompletion 0 now g).
Proof.
  apply handleCompleteGoal_table; [| lia].
  intros _. unfold localDate, toISODate. f_equal. unfold msPerMinute; lia.
Qed.

(** C1 at a failing input.  Five hours west of UTC, a long-term goal due on
    2025-01-10 without a due time is completed at noon of that day, local
    time (17:00 UTC): the instant is on the due date on the user's clock
    and in UTC alike, and the table gives 10, 0, onTime under either
    reading, but [handleCompleteGoal] awards 5, 5 with the late message. *)
Theorem handleCompleteGoal_west_of_UTC :
  let tz := -300 in
  let now := fridayNoonEST in
  localDate tz now = 20098 /\ toISODate now = 20098 /\
  handleCompleteGoal tz now dueFriday
  = mkAward 5 5 "Late completion! +5 points (AI gets +5)" /\
  points (handleCompleteGoal tz now dueFriday) = (5, 5, Some late) /\
  resolveCompletion tz now dueFriday = (10, 0, onTime) /\
  resolveCompletion 0 now dueFriday = (10, 0, onTime).
Proof. vm_compute. repeat split. Qed.

(** Scenarios A and B on UTC: a daily goal due at 18:00 completed at 17:00
    is early, completed at 19:30 it is on time. *)
Lemma scenarios_A_B_UTC :
  points (handleCompleteGoal 0 (MakeDate 20098 (MakeTime 17 0 0 0)) dailyAtSix)
  = (20, -5, Some early) /\
  points (handleCompleteGoal 0 (MakeDate 20098 (MakeTime 19 30 0 0)) dailyAtSix)
  = (5, 5, Some onTime).
Proof. split; reflexivity. Qed.

(** Scenario B five hours west of UTC: at 19:30 on the user's clock it is
    past midnight in UTC, [today] is tomorrow's date, and the goal due at
    18:00 counts as early. *)
Lemma scenario_B_west_of_UTC :
  let tz := -300 in
  let now := MakeDate 20099 (MakeTime 0 30 0 0) in
  localDate tz now = 20098 /\
  TimeWithinDay (LocalTime tz now) = MakeTime 19 30 0 0 /\
  points (handleCompleteGoal tz now dailyAtSix) = (20, -5, Some early) /\
  resolveCompletion tz now dailyAtSix = (5, 5, onTime).
Proof. vm_compute. repeat split. Qed.

(** ** Missed goals *)

Import Database.

(** Where the sweep's filter and [resolveMissed] agree: for a daily goal in
    every zone, for a long-term goal at or east of UTC, due times being
    whole minutes. *)
Lemma missed_matches_reference tz now H M g :
  (goal_type g = long_term -> 0 <= tz < 1440) ->
  (forall t, due_time g = Some t -> ss t = 0) ->
  missed tz now (Num H) (Num M) g = resolveMissed tz now (mkTime H M 0) g.
Proof.
  intros Hz Hs. unfold missed, resolveMissed, deadline.
  destruct (truthy (completed g)); [reflexivity|]. cbn [negb andb].
  destruct (goal_type g).
  - unfold gt, lt, setHours, localInstant, localDate, UTC, LocalTime, timeMs;
      cbn [hh mm ss].
    now rewrite Z.gtb_ltb.
  - specialize (Hz eq_refl).
    destruct (due_date g) as [d|]; [|reflexivity].
    destruct (due_time g) as [t|].
    + rewrite setHours_parseDate by assumption.
      specialize (Hs t eq_refl). destruct t as [h m s]; cbn in *; subst s.
      unfold gt, lt. now rewrite Z.gtb_ltb.
    + rewrite setHours_parseDate by assumption.
      unfold gt, lt. now rewrite Z.gtb_ltb.
Qed.

Lemma goal_deadline_UTC e g :
  goal_deadline 0 (Some e) g = deadline 0 e g.
Proof.
  unfold goal_deadline, deadline, timestamptz, localInstant, localDate,
    utc_date.
  destruct (goal_type g); cbn [option_map].
  - now rewrite Z.mul_0_l, Z.add_0_r.
  - destruct (due_date g), (due_time g); reflexivity.
Qed.

(** The trigger, in a session on UTC: a goal that is not completed and
    whose deadline is strictly before [NOW()] becomes completed with
    [points_earned = 0] and [ai_points_earned = 15], and the profile's AI
    total grows by 15; any other row is written as it came. *)
Lemma process_missed_goal_transition NOW p g :
  process_missed_goal 0 NOW (Some p) g =
  if resolveMissed 0 NOW (dayEndOf p) g
     && match completed g with Some false => true | _ => false end
  then (missedRow NOW g, Some (awarded p))
  else (g, Some p).
Proof.
  unfold process_missed_goal, resolveMissed. cbn [option_map].
  fold (dayEndOf p). rewrite goal_deadline_UTC.
  destruct (truthy (completed g)) eqn:Ec; [reflexivity|]. cbn [negb andb].
  destruct (deadline 0 (dayEndOf p) g) as [d|]; [|reflexivity].
  destruct (NOW >? d); [|reflexivity]. cbn [andb].
  destruct (completed g) as [[|]|]; reflexivity.
Qed.

(** Browser and database session both on UTC, reading the same instant, the
    day end and the due times being whole minutes: every goal the sweep
    selects and touches, its [completed] flag being false, is turned by the
    trigger into a completed row with 0 and 15 points, and the AI total
    grows by 15. *)
Lemma sweep_marks_in_UTC now H M p g :
  day_end_time p = Some (mkTime H M 0) ->
  (forall t, due_time g = Some t -> ss t = 0) ->
  completed g = Some false ->
  missed 0 now (Num H) (Num M) g = true ->
  process_missed_goal 0 now (Some p) g = (missedRow now g, Some (awarded p)).
Proof.
  intros Hp Hs Hc Hm.
  rewrite missed_matches_reference in Hm by (auto; lia).
  rewrite process_missed_goal_transition.
  unfold dayEndOf. rewrite Hp, Hm, Hc. reflexivity.
Qed.

(** Scenario C on UTC: a long-term goal due yesterday without a due time,
    swept today, is selected, and the trigger marks it completed with 0 and
    15 points and adds 15 to the AI total. *)
Lemma scenario_C_UTC :
  missed 0 fridayNoonEST (Num 23) (Num 59) dueThursday = true /\
  process_missed_goal 0 fridayNoonEST (Some profile40) dueThursday
  = (missedRow fridayNoonEST dueThursday, Some (awarded profile40)) /\
  ai_points (awarded profile40) = Some 55.
Proof. vm_compute. repeat split. Qed.

(** The earlier revision marks a missed goal itself: completed, with 15
    points for the AI, and adds 15 to the AI total for each. *)
Lemma earlier_sweep_marks tz now ai g :
  DashboardEarlier.missed tz now g = true ->
  DashboardEarlier.handleMissedGoals tz now ai [g]
  = ([DashboardEarlier.markMissed g], Some (orZero ai + 15)) /\
  completed (DashboardEarlier.markMissed g) = Some true /\
  ai_points_earned (DashboardEarlier.markMissed g) = Some 15.
Proof.
  intros H. unfold DashboardEarlier.handleMissedGoals.
  cbn [filter map]. rewrite H. repeat split.
Qed.

(** C2 at a failing input.  Five hours west of UTC, a long-term goal due on
    2025-01-10 at 18:00 is swept at noon of that day, local time: the due
    instant is still ahead on the user's clock and in UTC alike, so that
    [resolveMissed] answers false under either reading, but the filter of
    [handleMissedGoals] selects the goal and the sweep announces 15 points
    for the AI; the trigger, asked at the same instant, leaves the goal and
    the AI total as they are.  The earlier revision of the sweep selects
    the goal as well, and marks it and credits the AI. *)
Theorem missed_west_of_UTC :
  let tz := -300 in
  let now := fridayNoonEST in
  missed tz now (Num 23) (Num 59) dueFridayEvening = true /\
  handleMissedGoals tz now (Some "23:59:00") [dueFridayEvening]
  = [dueFridayEvening] /\
  announcedAiGain
    (handleMissedGoals tz now (Some "23:59:00") [dueFridayEvening]) = 15 /\
  resolveMissed tz now (mkTime 23 59 0) dueFridayEvening = false /\
  resolveMissed 0 now (mkTime 23 59 0) dueFridayEvening = false /\
  process_missed_goal 0 now (Some profile40) dueFridayEvening
  = (dueFridayEvening, Some profile40) /\
  DashboardEarlier.handleMissedGoals tz now (Some 40) [dueFridayEvening]
  = ([DashboardEarlier.markMissed dueFridayEvening], Some 55).
Proof. vm_compute. repeat split. Qed.

(** C3, as the code has it.  For a goal whose [completed] flag is already
    true the missed-goal resolver raises nothing and does nothing: the
    filters of the sweep answer false, so that the sweep never selects the
    goal, and the trigger writes the row and the profile unchanged; no second
    award reaches the AI. *)
Theorem completed_goal_skipped tz now eodHours eodMinutes dbtz NOW profile g :
  truthy (completed g) = true ->
  call (missed tz now eodHours eodMinutes g) = Returned false /\
  call (DashboardEarlier.missed tz now g) = Returned false /\
  call (process_missed_goal dbtz NOW profile g) = Returned (g, profile) /\
  (forall day_end goals, ~ In g (handleMissedGoals tz now day_end goals)).
Proof.
  intros H.
  assert (M : forall a b, missed tz now a b g = false)
    by (intros; unfold missed; now rewrite H).
  split; [unfold call; f_equal; apply M|].
  split; [unfold call, DashboardEarlier.missed; now rewrite H|].
  split; [unfold call, process_missed_goal; now rewrite H|].
  intros day_end goals Hin. unfold handleMissedGoals in Hin.
  apply filter_In in Hin. destruct Hin as [_ Hin].
  rewrite M in Hin. discriminate.
Qed.

(** A goal already marked as missed goes through the trigger unchanged. *)
Lemma completed_goal_skipped_witness :
  truthy (completed doneGoal) = true /\
  call (process_missed_goal 0 fridayNoonEST (Some profile40) doneGoal)
  = Returned (doneGoal, Some profile40).
Proof.
  split; [reflexivity|].
  exact (proj1 (proj2 (proj2
           (completed_goal_skipped 0 0 NaN NaN 0 fridayNoonEST
              (Some profile40) doneGoal eq_refl)))).
Defined.

(** C3 as stated fails: on a completed goal the resolver returns, and does
    not raise [PreconditionViolation]. *)
Lemma completed_goal_no_error :
  call (missed 0 fridayNoonEST (Num 23) (Num 59) doneGoal) = Returned false /\
  call (missed 0 fridayNoonEST (Num 23) (Num 59) doneGoal)
  <> Raised PreconditionViolation /\
  call (process_missed_goal 0 fridayNoonEST (Some profile40) doneGoal)
  <> Raised PreconditionViolation.
Proof. repeat split; discriminate. Qed.

(** ** The day end when the setting is absent *)

(** The end-of-day check falls back on "23:00" when the setting is absent,
    the sweep on "23:59". *)
Lemma day_end_defaults tz now goals :
  checkEndOfDay tz now None = checkEndOfDay tz now (Some "23:00") /\
  handleMissedGoals tz now None goals
  = handleMissedGoals tz now (Some "23:59") goals.
Proof. split; reflexivity. Qed.

(** ** Time to the day boundary, and malformed day boundaries *)

Section TimeToBoundary.
Import Ecma Countdown.

(** [Number] on strings that are and are not numeric literals, and its
    rounding. *)
Lemma Number_samples :
  map Number
    [""; " "; "23"; " 23"; "23 "; "+23"; "-1"; "1e1"; "0x17"; "0X1f";
     "0b101"; "0o17"; "23.0"; "23.5"; ".5"; "5."; "00023"; "-0";
     "Infinity"; "-Infinity"; "1e400"; "1e-400";
     "0.1"; "1e23"; "9007199254740993"; "22.99999999999999999999";
     "5e-324"; "1.7976931348623159e308"]
  = [0; 0; 23; 23; 23; 23; -1; 10; 23; 31;
     5; 15; 23; 23.5; 0.5; 5; 23; neg_zero;
     infinity; neg_infinity; infinity; 0;
     0.1; 1e23; 9007199254740992; 23;
     5e-324; infinity]%float /\
  forallb (fun s => is_nan (Number s))
    ["ab"; "cd"; "."; "e5"; "1e"; "1e+"; "infinity"; "0x"; "0xG"; "-0x10";
     "1_000"; "12px"; "1 2"; "0x1p3"; "1n"; "--1"; "+"; "-"; "1e5.5";
     "0b2"; "0o8"; ".e5"; "23h"] = true.
Proof. split; vm_compute; reflexivity. Qed.

(** [roundInt] against the rounding of the Standard Library, at and around
    the places where doubles thin out and where they end. *)
Lemma roundInt_samples :
  let samples :=
    [0; 1; -1; 2 ^ 53; 2 ^ 53 + 1; 2 ^ 53 + 2; 2 ^ 53 + 3; - (2 ^ 53 + 1);
     2 ^ 54 + 2; 2 ^ 54 + 3; 2 ^ 54 + 5; 2 ^ 54 + 6; 2 ^ 55 - 1;
     2 ^ 55 - 2; 2 ^ 55 - 3; 2 ^ 55 - 4; 2 ^ 60 + 2 ^ 7 - 1; 2 ^ 60 + 2 ^ 7;
     2 ^ 60 + 2 ^ 7 + 1; 2 ^ 60 + 3 * 2 ^ 7 - 1; 2 ^ 60 + 3 * 2 ^ 7;
     2 ^ 60 + 3 * 2 ^ 7 + 1; 36 * 10 ^ 17 + 3600000; 10 ^ 22; 10 ^ 23;
     3 ^ 40; - (3 ^ 60); 7 ^ 100; 5 ^ 300; 10 ^ 308; 10 ^ 309;
     2 ^ 1023 + 2 ^ 970; 2 ^ 1023 + 2 ^ 970 + 1; 2 ^ 1024 - 2 ^ 971;
     2 ^ 1024 - 2 ^ 970 - 1; 2 ^ 1024 - 2 ^ 970; 2 ^ 1024 - 1; 2 ^ 1024;
     - (2 ^ 1024)] in
  map roundInt samples = map roundIEEE samples.
Proof. vm_compute. reflexivity. Qed.

Lemma roundInt_exact x : Z.abs x <= 2 ^ 53 -> roundInt x = Some x.
Proof.
  intros H. unfold roundInt. cbv zeta.
  destruct (Z.leb_spec (Z.abs x) (2 ^ 53)); [reflexivity | lia].
Qed.

Lemma integerOf_NaN f : is_nan f = true -> integerOf f = None.
Proof. intros H. unfold integerOf, Prim2SF. rewrite H. reflexivity. Qed.

Ltac exact_double :=
  rewrite roundInt_exact by (change (2 ^ 53) with 9007199254740992; lia).

Lemma MakeTime_numeric hour min h m :
  integerOf hour = Some h -> integerOf min = Some m ->
  Z.abs h <= 1000000 -> Z.abs m <= 1000000 ->
  MakeTime hour min 0 0 = Some (h * msPerHour + m * msPerMinute).
Proof.
  intros Hh Hm Bh Bm. unfold MakeTime. rewrite Hh, Hm.
  change (integerOf 0) with (Some 0). cbv iota beta.
  unfold mul, add, msPerHour, msPerMinute, msPerSecond.
  rewrite (roundInt_exact (h * 3600000)), (roundInt_exact (m * 60000)),
    (roundInt_exact (0 * 1000))
    by (change (2 ^ 53) with 9007199254740992; lia).
  rewrite (roundInt_exact (h * 3600000 + m * 60000))
    by (change (2 ^ 53) with 9007199254740992; lia).
  rewrite (roundInt_exact (h * 3600000 + m * 60000 + 0 * 1000))
    by (change (2 ^ 53) with 9007199254740992; lia).
  exact_double. f_equal. lia.
Qed.

Lemma MakeTime_not_numeric hour min sec ms :
  integerOf hour = None \/ integerOf min = None ->
  MakeTime hour min sec ms = None.
Proof.
  intros [H | H]; unfold MakeTime; rewrite H; [reflexivity|].
  destruct (integerOf hour); reflexivity.
Qed.

Lemma Day_bounds t : Day t * msPerDay <= t < Day t * msPerDay + msPerDay.
Proof.
  unfold Day, msPerDay.
  pose proof (Z.div_mod t 86400000 ltac:(discriminate)).
  pose proof (Z.mod_pos_bound t 86400000 ltac:(reflexivity)). lia.
Qed.

Lemma MakeDate_exact day time :
  Z.abs (day * msPerDay) <= 9000000000000000 ->
  Z.abs time <= 4000000000000 ->
  MakeDate day (Some time) = Some (day * msPerDay + time).
Proof.
  intros Hd Ht. unfold MakeDate, mul, add.
  do 2 exact_double. reflexivity.
Qed.

(** Today's end of day as [setHours] computes it from numeric fields: the
    instant at which the local clock reads the hour and minute. *)
Lemma setHours_numeric z now hour min h m :
  integerOf hour = Some h -> integerOf min = Some m ->
  Z.abs h <= 1000000 -> Z.abs m <= 1000000 ->
  Z.abs now <= 8000000000000000 ->
  setHours z (Num now) hour min 0 0 = Num (todayEnd z now h m) /\
  Z.abs (todayEnd z now h m - now) <= 4000000000000.
Proof.
  intros Hh Hm Bh Bm Bn. unfold setHours, todayEnd.
  rewrite (MakeTime_numeric _ _ h m) by assumption.
  pose proof (Day_bounds (LocalTime z now)) as D.
  pose proof (LocalTZA_bound z now true) as O1.
  unfold LocalTime in *.
  set (d := Day (now + LocalTZA z now true)) in *.
  pose proof (LocalTZA_bound z
                (d * msPerDay + (h * msPerHour + m * msPerMinute)) false)
    as O2.
  unfold UTC.
  set (o := LocalTZA z (d * msPerDay + (h * msPerHour + m * msPerMinute))
              false) in *.
  unfold msPerDay, msPerHour, msPerMinute in *.
  rewrite MakeDate_exact by (unfold msPerDay; lia).
  cbn [option_map TimeClip]. unfold UTC, maxTime, msPerDay. fold o.
  destruct (Z.leb_spec (Z.abs (d * 86400000 + (h * 3600000 + m * 60000) - o))
              8640000000000000);
    [split; [reflexivity|] |]; lia.
Qed.

Lemma setHours_not_numeric z d hour min sec ms :
  integerOf hour = None \/ integerOf min = None ->
  setHours z d hour min sec ms = NaN.
Proof.
  intros H. unfold setHours. destruct d; [|reflexivity].
  rewrite MakeTime_not_numeric by exact H.
  unfold MakeDate, add. destruct (mul _ _); reflexivity.
Qed.

Lemma addDays_next z t :
  Z.abs t <= 8100000000000000 ->
  addDays z (Num t) 1 = Num (nextDay z t) /\
  Z.abs (nextDay z t - t) <= 3 * msPerDay.
Proof.
  intros Bt. unfold addDays, nextDay. cbv zeta.
  pose proof (Day_bounds (LocalTime z t)) as D.
  pose proof (LocalTZA_bound z t true) as O1.
  assert (T : 0 <= TimeWithinDay (LocalTime z t) < msPerDay)
    by (apply Z.mod_pos_bound; reflexivity).
  unfold LocalTime in *.
  set (d := Day (t + LocalTZA z t true)) in *.
  set (w := TimeWithinDay (t + LocalTZA z t true)) in *.
  assert (W : d * msPerDay + w = t + LocalTZA z t true).
  { unfold d, w, Day, TimeWithinDay.
    pose proof (Z.div_mod (t + LocalTZA z t true) msPerDay
                  ltac:(discriminate)). lia. }
  pose proof (LocalTZA_bound z ((d + 1) * msPerDay + w) false) as O2.
  unfold UTC.
  set (o := LocalTZA z ((d + 1) * msPerDay + w) false) in *.
  unfold msPerDay in *.
  rewrite MakeDate_exact by (unfold msPerDay; lia).
  cbn [option_map TimeClip]. unfold UTC, maxTime, msPerDay. fold o.
  destruct (Z.leb_spec (Z.abs ((d + 1) * 86400000 + w - o))
              8640000000000000);
    [split; [reflexivity|] |]; lia.
Qed.

(** The countdown on numeric fields. *)
Lemma calculateTimeToEOD_numeric z now dayEndTime h m :
  let fields := map Number (split ":" dayEndTime) in
  integerOf (element 0 fields) = Some h ->
  integerOf (element 1 fields) = Some m ->
  Z.abs h <= 1000000 -> Z.abs m <= 1000000 ->
  Z.abs now <= 8000000000000000 ->
  calculateTimeToEOD z now dayEndTime
  = Num (Z.max 0 (boundaryInstant z now h m - now)).
Proof.
  intros fields Hh Hm Bh Bm Bn. unfold calculateTimeToEOD. fold fields.
  destruct (setHours_numeric z now _ _ h m Hh Hm Bh Bm Bn) as [E B].
  rewrite E. unfold boundaryInstant, le. cbv zeta.
  destruct (Z.leb_spec (todayEnd z now h m) now) as [L | L].
  - destruct (addDays_next z (todayEnd z now h m)) as [E1 B1]; [lia|].
    rewrite E1. unfold sub, Math_max. unfold msPerDay in B1.
    exact_double. reflexivity.
  - unfold sub, Math_max. exact_double. reflexivity.
Qed.

(** The countdown when the hour or the minute is missing, not numeric or
    infinite. *)
Lemma calculateTimeToEOD_not_numeric z now dayEndTime :
  let fields := map Number (split ":" dayEndTime) in
  integerOf (element 0 fields) = None \/
  integerOf (element 1 fields) = None ->
  calculateTimeToEOD z now dayEndTime = NaN.
Proof.
  intros fields H. unfold calculateTimeToEOD. fold fields.
  rewrite setHours_not_numeric by exact H. reflexivity.
Qed.

(** Where the clock does not change, today's end of day is within a day
    of [now] and the next day's is 24 hours after it. *)
Lemma steady_boundary z c now h m :
  0 <= h < 24 -> 0 <= m < 60 -> steady z c now ->
  let eod := todayEnd z now h m in
  eod = Day (now + c) * msPerDay + (h * msPerHour + m * msPerMinute) - c /\
  now - msPerDay < eod <= now + msPerDay /\
  (eod <= now -> nextDay z eod = eod + msPerDay).
Proof.
  intros Hh Hm S. cbv zeta.
  pose proof (LocalTZA_bound z now true) as O.
  assert (C : LocalTZA z now true = c)
    by (apply S; unfold msPerDay; lia).
  rewrite C in O.
  assert (E : todayEnd z now h m
              = Day (now + c) * msPerDay
                + (h * msPerHour + m * msPerMinute) - c).
  { unfold todayEnd, LocalTime, UTC. rewrite C.
    pose proof (Day_bounds (now + c)) as D.
    rewrite S; [reflexivity|].
    unfold msPerDay, msPerHour, msPerMinute in *. lia. }
  pose proof (Day_bounds (now + c)) as D.
  split; [exact E|]. split.
  - rewrite E. unfold msPerDay, msPerHour, msPerMinute in *. lia.
  - intros L. unfold nextDay. cbv zeta.
    assert (C' : LocalTZA z (todayEnd z now h m) true = c).
    { apply S. rewrite E.
      unfold msPerDay, msPerHour, msPerMinute in *. lia. }
    unfold LocalTime. rewrite C'.
    assert (L0 : todayEnd z now h m + c
                 = Day (now + c) * msPerDay
                   + (h * msPerHour + m * msPerMinute)) by lia.
    rewrite L0.
    assert (Dd : Day (Day (now + c) * msPerDay
                      + (h * msPerHour + m * msPerMinute))
                 = Day (now + c)).
    { unfold Day. rewrite Z.add_comm, Z.div_add by discriminate.
      rewrite Z.div_small; [reflexivity|].
      unfold msPerDay, msPerHour, msPerMinute. lia. }
    assert (Dt : TimeWithinDay (Day (now + c) * msPerDay
                                + (h * msPerHour + m * msPerMinute))
                 = h * msPerHour + m * msPerMinute).
    { unfold TimeWithinDay. rewrite Z.add_comm, Z.mod_add by discriminate.
      apply Z.mod_small. unfold msPerDay, msPerHour, msPerMinute. lia. }
    rewrite Dd, Dt. unfold UTC. rewrite S.
    + rewrite E. lia.
    + rewrite E in L. unfold msPerDay, msPerHour, msPerMinute in *. lia.
Qed.

Lemma steady_utc now : steady utc 0 now.
Proof. intros t isUTC _. reflexivity. Qed.

Lemma steady_newYork_january :
  steady newYork2025 (-5 * msPerHour) 1736528400000.
Proof.
  intros t isUTC H. unfold msPerDay in H. cbn [LocalTZA newYork2025].
  unfold newYorkOffset. cbv zeta.
  destruct isUTC.
  - destruct (Z.ltb_spec t 1741503600000); [reflexivity | lia].
  - destruct (Z.ltb_spec t 1741489200000); [reflexivity | lia].
Qed.

(** C7, as the code has it.  For a day boundary whose hour and minute
    fields are numbers (of at most a million in size), at an instant [now]
    within 8 * 10^15 ms of the epoch and in any time zone,
    [calculateTimeToEOD] is [computeTimeToBoundary]'s
    [max(0, boundaryInstant - now)], the boundary being the instant at which
    the local clock reads the hour and minute on the day of [now], rolled by
    the function itself to the same local time of the next calendar day when
    it is not after [now].  The result is never negative, and it is zero
    exactly when the rolled boundary is still not after [now].  For an hour
    in 0..23 and a minute in 0..59, where the clock does not change within
    two days, the rolled boundary lies within the next 24 hours: the result
    is positive, and a full 24 hours at the end of day itself. *)
Theorem calculateTimeToEOD_max (z : Zone) now dayEndTime h m :
  let fields := map Number (split ":" dayEndTime) in
  integerOf (element 0 fields) = Some h ->
  integerOf (element 1 fields) = Some m ->
  Z.abs h <= 1000000 -> Z.abs m <= 1000000 ->
  Z.abs now <= 8000000000000000 ->
  let boundary := boundaryInstant z now h m in
  calculateTimeToEOD z now dayEndTime
  = Num (computeTimeToBoundary now boundary) /\
  (exists t, calculateTimeToEOD z now dayEndTime = Num t /\ 0 <= t) /\
  (calculateTimeToEOD z now dayEndTime = Num 0 <-> boundary <= now) /\
  (forall c,
      0 <= h < 24 -> 0 <= m < 60 -> steady z c now ->
      now < boundary <= now + msPerDay /\
      calculateTimeToEOD z now dayEndTime = Num (boundary - now) /\
      (todayEnd z now h m = now ->
       calculateTimeToEOD z now dayEndTime = Num msPerDay)).
Proof.
  intros fields Hh Hm Bh Bm Bn boundary.
  pose proof (calculateTimeToEOD_numeric z now dayEndTime h m
                Hh Hm Bh Bm Bn) as E.
  fold boundary in E. unfold computeTimeToBoundary.
  split; [exact E|]. split; [| split].
  - exists (Z.max 0 (boundary - now)). split; [exact E | lia].
  - rewrite E. split.
    + intros N. injection N as N. lia.
    + intros L. f_equal. lia.
  - intros c Vh Vm S.
    destruct (steady_boundary z c now h m Vh Vm S) as (_ & R & N).
    assert (B : now < boundary <= now + msPerDay).
    { subst boundary. unfold boundaryInstant. cbv zeta.
      destruct (Z.leb_spec (todayEnd z now h m) now) as [L | L].
      - rewrite (N L). lia.
      - lia. }
    split; [exact B|]. split.
    + rewrite E. f_equal. lia.
    + intros T. rewrite E. f_equal. subst boundary.
      unfold boundaryInstant. cbv zeta.
      destruct (Z.leb_spec (todayEnd z now h m) now) as [L | L]; [|lia].
      rewrite (N L). lia.
Qed.

(** On UTC: at 23:00 with the day ending at 23:00 a full day is left, and
    at 23:30 with the day ending at "-1:00" nothing is. *)
Lemma calculateTimeToEOD_max_witness :
  calculateTimeToEOD utc 82800000 "23:00" = Num 86400000 /\
  calculateTimeToEOD utc 84600000 "-1:00" = Num 0.
Proof.
  split.
  - destruct (calculateTimeToEOD_max utc 82800000 "23:00" 23 0
                eq_refl eq_refl ltac:(cbn; lia) ltac:(cbn; lia)
                ltac:(cbn; lia))
      as (_ & _ & _ & V).
    exact (proj2 (proj2 (V 0 ltac:(lia) ltac:(lia) (steady_utc _)))
             eq_refl).
  - destruct (calculateTimeToEOD_max utc 84600000 "-1:00" (-1) 0
                eq_refl eq_refl ltac:(cbn; lia) ltac:(cbn; lia)
                ltac:(cbn; lia))
      as (_ & _ & Zero & _).
    apply Zero. vm_compute. discriminate.
Defined.

(** C7 as stated fails: one millisecond after the day's end at 23:00 the
    operation of the specification gives zero for that boundary, and the
    code gives the time to the next day's end. *)
Lemma calculateTimeToEOD_after_boundary :
  todayEnd utc 82800001 23 0 = 82800000 /\
  computeTimeToBoundary 82800001 82800000 = 0 /\
  calculateTimeToEOD utc 82800001 "23:00" = Num 86399999 /\
  calculateTimeToEOD utc 82800001 "23:00" <> Num 0.
Proof. repeat split; try reflexivity. discriminate. Qed.




(** What [Number] reads as a number is accepted, whatever its form and
    range: white space, signs, exponents, radix prefixes and fractions, a
    third field, empty fields, and hours and minutes past 23 and 59, which
    roll over.  A single field, text, an infinite field, and a date past
    the range of [Date] give [NaN]. *)
Lemma day_end_strings_accepted :
  calculateTimeToEOD utc 0 " 23:00" = Num 82800000 /\
  calculateTimeToEOD utc 0 "+23:0e0" = Num 82800000 /\
  calculateTimeToEOD utc 0 "0x17:00" = Num 82800000 /\
  calculateTimeToEOD utc 0 "23.9:00.5" = Num 82800000 /\
  calculateTimeToEOD utc 0 "23:00:00" = Num 82800000 /\
  calculateTimeToEOD utc 0 ":" = Num 86400000 /\
  calculateTimeToEOD utc 0 "25:61" = Num 93660000 /\
  calculateTimeToEOD utc 0 "23" = NaN /\
  calculateTimeToEOD utc 0 "" = NaN /\
  calculateTimeToEOD utc 0 "23h:00" = NaN /\
  calculateTimeToEOD utc 0 "Infinity:00" = NaN /\
  calculateTimeToEOD utc 0 "99999999999:00" = NaN /\
  calculateTimeToEOD utc 8639999999999999 "23:00" = NaN.
Proof. repeat split; vm_compute; reflexivity. Qed.

(** Days on which the clock changes, in New York.  At 00:30 of 2025-11-02,
    a day of 25 hours, 24 h 29 min are left until 23:59, and the progress
    through the day and the threat level are negative.  At 01:00 of
    2025-03-09 the day end 02:30, a time the clock skips, is an hour and a
    half away, and at 00:30 of that day, one of 23 hours, 22 h 29 min are
    left until 23:59. *)
Lemma clock_change_days :
  calculateTimeToEOD newYork2025 1762057800000 "23:59" = Num 88140000 /\
  (GameLoopState.eodProgress 88140000 < 0)%Q /\
  (threatLevel 88140000 30 30 < 0)%Q /\
  calculateTimeToEOD newYork2025 1741500000000 "02:30" = Num 5400000 /\
  calculateTimeToEOD newYork2025 1741498200000 "23:59" = Num 80940000.
Proof. repeat split; vm_compute; reflexivity. Qed.

(** In a zone of constant offset, on fields that [Number] reads as whole
    numbers and inside the range, this is [GameLoop.calculateTimeToEOD]. *)
Lemma calculateTimeToEOD_constant_offset (z : Zone) tz now s h m rest :
  (forall t isUTC, LocalTZA z t isUTC = tz * msPerMinute) ->
  map Js.Number (split ":" s) = Num h :: Num m :: rest ->
  integerOf (element 0 (map Number (split ":" s))) = Some h ->
  integerOf (element 1 (map Number (split ":" s))) = Some m ->
  Z.abs h <= 1000000 -> Z.abs m <= 1000000 ->
  Z.abs now <= 8000000000000000 ->
  calculateTimeToEOD z now s = GameLoop.calculateTimeToEOD tz now s.
Proof.
  intros C Hf Hh Hm Bh Bm Bn.
  rewrite (calculateTimeToEOD_numeric z now s h m Hh Hm Bh Bm Bn).
  unfold GameLoop.calculateTimeToEOD. rewrite Hf.
  cbn [Js.element nth JsDate.setHours]. unfold Js.le.
  assert (E : todayEnd z now h m
              = JsDate.UTC tz
                  (JsDate.MakeDate (Day (JsDate.LocalTime tz now))
                                   (JsDate.MakeTime h m 0 0))).
  { unfold todayEnd, UTC, LocalTime, JsDate.UTC, JsDate.LocalTime,
      JsDate.MakeDate, JsDate.MakeTime.
    rewrite !C. unfold msPerSecond. lia. }
  unfold boundaryInstant. cbv zeta. rewrite <- E.
  destruct (Z.leb_spec (todayEnd z now h m) now) as [L | L].
  - rewrite addDays_shift. unfold Js.sub, Math_max. do 2 f_equal.
    unfold nextDay, UTC, LocalTime. cbv zeta. rewrite !C.
    unfold Day, TimeWithinDay.
    pose proof (Z.div_mod (todayEnd z now h m + tz * msPerMinute) msPerDay
                  ltac:(discriminate)).
    lia.
  - reflexivity.
Qed.

End TimeToBoundary.

(** * Further properties of the code *)

Import GameLoopState Strategies GoalUpdate.

(** The bands of the time left and of the margin, with their bounds kept
    as hypotheses. *)
Ltac time_bands t :=
  destruct (hours_thresholds t) as (-> & -> & -> & ->);
  destruct (Z.ltb_spec t 900000);
    [| destruct (Z.ltb_spec t 1800000);
       [| destruct (Z.ltb_spec t 3600000);
          [| destruct (Z.ltb_spec t 7200000)]]].

Ltac margin_bands d :=
  destruct (Z.ltb_spec d (-20));
    [| destruct (Z.ltb_spec d (-10)); [| destruct (Z.ltb_spec d 0)]].

(** ** The countdown *)

(** X1. The countdown text in closed form: "0m" when no time is left, whole
    seconds under a minute, minutes and seconds under an hour, hours and
    minutes from an hour on, each unit rounded down. *)
Theorem formatTimeRemaining_cases (ms : Z) :
  (ms <= 0 -> formatTimeRemaining (Num ms) = "0m") /\
  (0 < ms < 60000 ->
   formatTimeRemaining (Num ms) = toString (Num (ms / 1000)) ++ "s") /\
  (60000 <= ms < 3600000 ->
   formatTimeRemaining (Num ms)
   = toString (Num (ms / 60000)) ++ "m "
     ++ toString (Num ((ms / 1000) mod 60)) ++ "s") /\
  (3600000 <= ms ->
   formatTimeRemaining (Num ms)
   = toString (Num (ms / 3600000)) ++ "h "
     ++ toString (Num ((ms / 60000) mod 60)) ++ "m").
Proof.
  unfold formatTimeRemaining, le, gt, lt, floorDiv, remainder.
  assert (D1 : ms / 1000 / 3600 = ms / 3600000)
    by (rewrite Z.div_div by lia; reflexivity).
  assert (D2 : 0 <= ms -> Z.rem (ms / 1000) 3600 / 60 = (ms / 60000) mod 60).
  { intros H.
    assert (0 <= ms / 1000) by (apply Z.div_pos; lia).
    rewrite Z.rem_mod_nonneg by lia.
    replace 3600 with (60 * 60) by reflexivity.
    rewrite Z.rem_mul_r by lia.
    rewrite (Z.mul_comm 60 ((ms / 1000 / 60) mod 60)), Z.div_add by lia.
    rewrite (Z.div_small ((ms / 1000) mod 60) 60)
      by (apply Z.mod_pos_bound; lia).
    rewrite Z.div_div by lia. reflexivity. }
  assert (D3 : 0 <= ms -> Z.rem (ms / 1000) 60 = (ms / 1000) mod 60).
  { intros H. apply Z.rem_mod_nonneg; [apply Z.div_pos|]; lia. }
  repeat split; intros H.
  - destruct (Z.leb_spec ms 0); [reflexivity | lia].
  - destruct (Z.leb_spec ms 0); [lia|].
    rewrite D1, D2, D3 by lia.
    assert (ms / 3600000 = 0) as -> by (apply Z.div_small; lia).
    assert (ms / 60000 = 0) as -> by (apply Z.div_small; lia).
    cbn [Z.ltb Z.compare Z.modulo Z.div_eucl].
    rewrite Z.mod_small; [reflexivity|].
    split; [apply Z.div_pos; lia | apply Z.div_lt_upper_bound; lia].
  - destruct (Z.leb_spec ms 0); [lia|].
    rewrite D1, D2, D3 by lia.
    assert (ms / 3600000 = 0) as -> by (apply Z.div_small; lia).
    assert (1 <= ms / 60000 < 60)
      by (split; [apply Z.div_le_lower_bound | apply Z.div_lt_upper_bound];
          lia).
    rewrite (Z.mod_small (ms / 60000) 60) by lia.
    cbn [Z.ltb Z.compare].
    destruct (Z.ltb_spec 0 (ms / 60000)); [reflexivity | lia].
  - destruct (Z.leb_spec ms 0); [lia|].
    rewrite D1, D2 by lia.
    assert (1 <= ms / 3600000) by (apply Z.div_le_lower_bound; lia).
    destruct (Z.ltb_spec 0 (ms / 3600000)); [reflexivity | lia].
Qed.

Section CountdownText.
Import Ecma Countdown.

(** X2. With a day boundary whose hour or minute field is missing, is not
    a numeric literal or is infinite, the countdown reads "NaNs", at every
    instant and in every time zone. *)
Theorem countdown_of_malformed_day_end (z : Zone) now s :
  let fields := map Number (split ":" s) in
  integerOf (element 0 fields) = None \/
  integerOf (element 1 fields) = None ->
  formatTimeRemaining (calculateTimeToEOD z now s) = "NaNs".
Proof.
  intros fields H. rewrite calculateTimeToEOD_not_numeric by exact H.
  reflexivity.
Qed.

(** The day boundary "23" has no minute field. *)
Lemma countdown_of_malformed_day_end_witness :
  integerOf (element 1 (map Number (split ":" "23"))) = None /\
  formatTimeRemaining (calculateTimeToEOD newYork2025 0 "23") = "NaNs".
Proof.
  split; [reflexivity|].
  exact (countdown_of_malformed_day_end newYork2025 0 "23"
           (or_intror eq_refl)).
Defined.

(** X3. For a day boundary with an hour in 0..23 and a minute in 0..59,
    at an instant within 8 * 10^15 ms of the epoch around which the clock
    of the zone does not change for two days, the time left is more than 0
    and at most 24 hours, the progress through the day lies in [0, 1) and
    the threat level in [0, 1].  (On a day of 25 hours they go below 0:
    [clock_change_days].) *)
Theorem day_progress_and_threat_in_range (z : Zone) now s h m c u a :
  let fields := map Number (split ":" s) in
  integerOf (element 0 fields) = Some h ->
  integerOf (element 1 fields) = Some m ->
  0 <= h < 24 -> 0 <= m < 60 ->
  Z.abs now <= 8000000000000000 ->
  steady z c now ->
  exists t,
    calculateTimeToEOD z now s = Num t /\ 0 < t <= 86400000 /\
    (0 <= eodProgress t)%Q /\ (eodProgress t < 1)%Q /\
    (0 <= threatLevel t u a)%Q /\ (threatLevel t u a <= 1)%Q.
Proof.
  intros fields Hh Hm Vh Vm Bn S.
  pose proof (calculateTimeToEOD_numeric z now s h m Hh Hm
                ltac:(lia) ltac:(lia) Bn) as E.
  destruct (steady_boundary z c now h m Vh Vm S) as (_ & R & N).
  assert (B : now < boundaryInstant z now h m <= now + msPerDay).
  { unfold boundaryInstant. cbv zeta.
    destruct (Z.leb_spec (todayEnd z now h m) now) as [L | L].
    - rewrite (N L). lia.
    - lia. }
  exists (boundaryInstant z now h m - now).
  split; [rewrite E; f_equal; lia|].
  set (t := boundaryInstant z now h m - now) in *.
  assert (Bt : 0 < t <= 86400000) by (unfold msPerDay in B; lia).
  split; [exact Bt|].
  assert (P0 : (0 < inject_Z t / 86400000)%Q).
  { apply Qlt_shift_div_l; [reflexivity|]. rewrite Qmult_0_l.
    change 0%Q with (inject_Z 0). rewrite <- Zlt_Qlt. lia. }
  assert (P1 : (inject_Z t / 86400000 <= 1)%Q).
  { apply Qle_shift_div_r; [reflexivity|]. rewrite Qmult_1_l.
    change (86400000%Q) with (inject_Z 86400000). rewrite <- Zle_Qle. lia. }
  assert (E0 : (0 <= eodProgress t)%Q /\ (eodProgress t < 1)%Q).
  { unfold eodProgress; cbv zeta.
    change (inject_Z (24 * 60 * 60 * 1000)) with (86400000%Q). split; lra. }
  destruct E0 as [E0 E1]. repeat split; try assumption.
  - rewrite threatLevel_unfold. apply Q.min_glb; [discriminate|].
    assert (0 <= scoreComponent (u - a))%Q.
    { unfold scoreComponent. destruct (u - a <? 0); [|apply Qle_refl].
      apply Q.min_glb; [discriminate|].
      apply Qle_shift_div_l; [reflexivity|]. rewrite Qmult_0_l.
      change 0%Q with (inject_Z 0). rewrite <- Zle_Qle. lia. }
    lra.
  - rewrite threatLevel_unfold. apply Q.le_min_l.
Qed.

(** New York at noon of 2025-01-10, two months before the clock changes,
    with the day ending at 23:00. *)
Lemma day_progress_and_threat_in_range_witness :
  exists t,
    calculateTimeToEOD newYork2025 1736528400000 "23:00" = Num t /\
    0 < t <= 86400000 /\
    (0 <= eodProgress t)%Q /\ (eodProgress t < 1)%Q /\
    (0 <= threatLevel t 10 40)%Q /\ (threatLevel t 10 40 <= 1)%Q.
Proof.
  exact (day_progress_and_threat_in_range newYork2025 1736528400000
           "23:00" 23 0 (-5 * msPerHour) 10 40 eq_refl eq_refl
           ltac:(lia) ltac:(lia) ltac:(cbn; lia) steady_newYork_january).
Defined.

End CountdownText.

(** ** Momentum *)

Lemma inject_Z_div_ge1 d : 30 <= d -> (1 <= inject_Z d / 30)%Q.
Proof.
  intros H. apply Qle_shift_div_l; [reflexivity|]. rewrite Qmult_1_l.
  change (30%Q) with (inject_Z 30). rewrite <- Zle_Qle. exact H.
Qed.

Lemma inject_Z_div_lt1 d : d < 30 -> (inject_Z d / 30 < 1)%Q.
Proof.
  intros H. apply Qlt_shift_div_r; [reflexivity|]. rewrite Qmult_1_l.
  change (30%Q) with (inject_Z 30). rewrite <- Zlt_Qlt. exact H.
Qed.

Lemma inject_Z_div_ge5 d : 6 <= d -> (1 # 5 <= inject_Z d / 30)%Q.
Proof.
  intros H. apply Qle_shift_div_l; [reflexivity|].
  change ((1 # 5) * 30)%Q with ((1 # 5) * inject_Z 30)%Q.
  assert (inject_Z 6 <= inject_Z d)%Q by (rewrite <- Zle_Qle; exact H).
  assert ((1 # 5) * inject_Z 30 == inject_Z 6)%Q by reflexivity.
  lra.
Qed.

(** X4. Momentum is neutral, with strength 0, exactly when the scores are
    within 5 points of each other; elsewhere it points to the leader and its
    strength lies between 0.2 and 1, reaching 1 exactly from a 30-point
    gap. *)
Theorem momentum_dead_zone u a :
  let d := fst (momentum u a) in
  let s := snd (momentum u a) in
  (d = neutral <-> -5 <= u - a <= 5) /\
  (d = user <-> 5 < u - a) /\
  (d = ai <-> u - a < -5) /\
  (d = neutral -> s = 0%Q) /\
  (d <> neutral -> (1 # 5 <= s)%Q /\ (s <= 1)%Q) /\
  ((s == 1)%Q <-> 30 <= Z.abs (u - a)).
Proof.
  cbv zeta. unfold momentum.
  destruct (Z.gtb_spec (u - a) 5) as [H|H]; cbn [fst snd].
  - repeat split; try (intros; try discriminate; try congruence; lia).
    + apply Q.min_glb; [discriminate|]. apply inject_Z_div_ge5; lia.
    + apply Q.le_min_l.
    + intros E. destruct (Z.lt_ge_cases (u - a) 30) as [L|L]; [|lia].
      exfalso. pose proof (inject_Z_div_lt1 _ L) as P.
      rewrite Q.min_r in E by (apply Qlt_le_weak; exact P). lra.
    + intros L. apply Q.min_l. apply inject_Z_div_ge1. lia.
  - destruct (Z.ltb_spec (u - a) (-5)) as [H'|H']; cbn [fst snd].
    + repeat split; try (intros; try discriminate; try congruence; lia).
      * apply Q.min_glb; [discriminate|]. apply inject_Z_div_ge5; lia.
      * apply Q.le_min_l.
      * intros E.
        destruct (Z.lt_ge_cases (Z.abs (u - a)) 30) as [L|L]; [|lia].
        exfalso. pose proof (inject_Z_div_lt1 _ L) as P.
        rewrite Q.min_r in E by (apply Qlt_le_weak; exact P). lra.
      * intros L. apply Q.min_l. apply inject_Z_div_ge1. lia.
    + repeat split; intros; try reflexivity; try discriminate; try lia;
        try congruence.
      all: try (exfalso;
                match goal with
                | H : _ <> _ |- _ => apply H; reflexivity
                end).
      all: match goal with H : (0 == 1)%Q |- _ => discriminate H end.
Qed.

(** X5. Momentum is symmetric: with the scores exchanged it points the
    other way with the same strength. *)
Theorem momentum_mirror u a :
  momentum a u = (opposite (fst (momentum u a)), snd (momentum u a)).
Proof.
  unfold momentum.
  destruct (Z.gtb_spec (u - a) 5); destruct (Z.gtb_spec (a - u) 5); try lia;
    destruct (Z.ltb_spec (u - a) (-5)); destruct (Z.ltb_spec (a - u) (-5));
    try lia; cbn [fst snd opposite]; try reflexivity.
  - replace (Z.abs (a - u)) with (u - a) by lia. reflexivity.
  - replace (Z.abs (u - a)) with (a - u) by lia. reflexivity.
Qed.

(** X6. Momentum never contradicts the game state: momentum for the user
    comes with userWinning (victory at end of day), momentum for the AI with
    aiWinning (defeat at end of day), and on equal scores momentum is
    neutral. *)
Theorem momentum_agrees_with_state u a e :
  (fst (momentum u a) = user ->
   getGameState u a e = if e then victory else userWinning) /\
  (fst (momentum u a) = ai ->
   getGameState u a e = if e then defeat else aiWinning) /\
  (getGameState u a e = tied \/ getGameState u a e = endOfDay ->
   momentum u a = (neutral, 0%Q)).
Proof.
  unfold momentum, getGameState.
  destruct (Z.gtb_spec (u - a) 5); destruct (Z.ltb_spec (u - a) (-5));
    destruct (Z.gtb_spec u a); destruct (Z.gtb_spec a u); try lia;
    destruct e; cbn [fst snd]; repeat split; intros; try discriminate;
    try reflexivity;
    match goal with H : _ \/ _ |- _ => destruct H; discriminate end.
Qed.

(** ** Intensity, pulse and beat *)

(** X7. Time pressure never lowers the intensity, and neither does falling
    behind: with less time left, or with a smaller margin, the value and
    the level are at least what they were. *)
Theorem intensity_monotone :
  (forall t t' u a,
      t' <= t ->
      (value (calculateIntensity t u a)
       <=? value (calculateIntensity t' u a))%float = true /\
      levelRank (level (calculateIntensity t u a))
      <= levelRank (level (calculateIntensity t' u a))) /\
  (forall t u a u' a',
      u' - a' <= u - a ->
      (value (calculateIntensity t u a)
       <=? value (calculateIntensity t u' a'))%float = true /\
      levelRank (level (calculateIntensity t u a))
      <= levelRank (level (calculateIntensity t u' a'))).
Proof.
  split.
  - intros t t' u a H. unfold calculateIntensity; cbv zeta.
    change (inject_Z (1000 * 60 * 60)) with (inject_Z 3600000).
    time_bands t; time_bands t'; try lia;
      margin_bands (u - a); vm_compute; split;
      solve [reflexivity | discriminate].
  - intros t u a u' a' H. unfold calculateIntensity; cbv zeta.
    change (inject_Z (1000 * 60 * 60)) with (inject_Z 3600000).
    time_bands t;
      margin_bands (u - a); margin_bands (u' - a'); try lia;
      vm_compute; split; solve [reflexivity | discriminate].
Qed.

(** X8. Whatever the time left and the scores, the pulse cycle stays
    between 170 and 360 ms and the beat interval between 356 and 888 ms:
    both are positive, and the 150 ms and 300 ms the comments name are
    never reached. *)
Theorem pulse_and_beat_bounds t u a :
  let v := value (calculateIntensity t u a) in
  (170 <=? cycleDuration v)%float = true /\
  (cycleDuration v <=? 360)%float = true /\
  (356 <=? beatInterval v)%float = true /\
  (beatInterval v <=? 888)%float = true.
Proof.
  unfold calculateIntensity; cbv zeta.
  change (inject_Z (1000 * 60 * 60)) with (inject_Z 3600000).
  time_bands t; margin_bands (u - a); vm_compute; repeat split.
Qed.

(** ** Game state, animations and effects *)

(** X9. The game state is monotone in the user's score (more points never
    lose a lead, fewer never make up a deficit), exchanging the scores
    exchanges the sides, and the state active is never returned. *)
Theorem getGameState_monotone_mirror :
  (forall u u' a e,
      u <= u' ->
      (getGameState u a e = userWinning ->
       getGameState u' a e = userWinning) /\
      (getGameState u a e = victory -> getGameState u' a e = victory) /\
      (getGameState u' a e = aiWinning -> getGameState u a e = aiWinning) /\
      (getGameState u' a e = defeat -> getGameState u a e = defeat)) /\
  (forall u a e, getGameState a u e = swapSides (getGameState u a e)) /\
  (forall u a e, getGameState u a e <> active).
Proof.
  unfold getGameState. repeat split; intros;
    repeat match goal with
           | H : context [?x >? ?y] |- _ => destruct (Z.gtb_spec x y)
           | |- context [?x >? ?y] => destruct (Z.gtb_spec x y)
           end; destruct e; try discriminate; try reflexivity; try lia.
Qed.

(** X10. In every theme a character shows the victory animation exactly
    when it is end of day and that side leads, and the defeat animation
    exactly when it is end of day and the other side leads. *)
Theorem end_of_day_animations theme u a e :
  (getAnimationClass (getGameState u a e) theme true
   = victoryAnimation (animations theme) <-> e = true /\ u > a) /\
  (getAnimationClass (getGameState u a e) theme false
   = victoryAnimation (animations theme) <-> e = true /\ a > u) /\
  (getAnimationClass (getGameState u a e) theme true
   = defeatAnimation (animations theme) <-> e = true /\ a > u) /\
  (getAnimationClass (getGameState u a e) theme false
   = defeatAnimation (animations theme) <-> e = true /\ u > a).
Proof.
  unfold getGameState.
  destruct (Z.gtb_spec u a); destruct (Z.gtb_spec a u); try lia;
    destruct e; destruct theme; cbn; repeat split; intros;
    try discriminate; try reflexivity; try lia;
    try match goal with
        | H : _ /\ _ |- _ => destruct H; try discriminate; try lia
        end.
Qed.

(** X11. At end of day the two characters' movements are mirror images:
    exchanging the scores exchanges them. *)
Theorem end_of_day_movement_mirror u a isUser :
  calculateMovement (getGameState u a true) isUser
  = calculateMovement (getGameState a u true) (negb isUser).
Proof.
  unfold getGameState.
  destruct (Z.gtb_spec u a); destruct (Z.gtb_spec a u); try lia;
    destruct isUser; reflexivity.
Qed.

(** X12. Continuous effects are shown exactly at end of day, and eight
    effects instead of three exactly when the day ends with a winner. *)
Theorem continuous_effects_iff_end_of_day u a e :
  shouldShowContinuousEffects (getGameState u a e) = e /\
  getEffectCount (getGameState u a e)
  = (if e && negb (u =? a) then 8 else 3).
Proof.
  unfold getGameState.
  destruct (Z.gtb_spec u a); destruct (Z.gtb_spec a u); try lia;
    destruct (Z.eqb_spec u a); try lia; destruct e; split; reflexivity.
Qed.

(** ** Completing a goal *)

Lemma award_cases tz now g :
  let a := handleCompleteGoal tz now g in
  (userPoints a = 20 /\ aiPoints a = -5) \/
  (userPoints a = 10 /\ aiPoints a = 0) \/
  (userPoints a = 5 /\ aiPoints a = 5).
Proof.
  cbv zeta. unfold handleCompleteGoal.
  destruct (goal_type g), (due_date g), (due_time g);
    repeat match goal with
           | |- context [if ?c then _ else _] => destruct c
           end;
    cbn; auto.
Qed.

(** X13. A completion gives the user between 5 and 20 points and the AI
    between -5 and 5, the user's total grows, the user's margin grows by 0,
    10 or 25, and a user who led before still leads after. *)
Theorem completion_keeps_the_lead tz now profile g :
  let award := handleCompleteGoal tz now g in
  let after := snd (DashboardState.completeGoal tz now profile g) in
  let margin :=
    orZero (DashboardState.total_points profile)
    - orZero (DashboardState.ai_points profile) in
  let margin' :=
    orZero (DashboardState.total_points after)
    - orZero (DashboardState.ai_points after) in
  5 <= userPoints award <= 20 /\ -5 <= aiPoints award <= 5 /\
  orZero (DashboardState.total_points profile)
  < orZero (DashboardState.total_points after) /\
  (margin' = margin \/ margin' = margin + 10 \/ margin' = margin + 25) /\
  (forall e,
      getGameState (orZero (DashboardState.total_points profile))
                   (orZero (DashboardState.ai_points profile)) e
      = (if e then victory else userWinning) ->
      getGameState (orZero (DashboardState.total_points after))
                   (orZero (DashboardState.ai_points after)) e
      = (if e then victory else userWinning)).
Proof.
  cbv zeta.
  unfold DashboardState.completeGoal, DashboardState.creditedProfile;
    cbn [snd DashboardState.total_points DashboardState.ai_points orZero].
  pose proof (award_cases tz now g) as H. cbv zeta in H.
  set (aw := handleCompleteGoal tz now g) in *.
  repeat split; try lia.
  intros e. unfold getGameState.
  repeat match goal with
         | |- context [?x >? ?y] => destruct (Z.gtb_spec x y)
         end;
    destruct e; intros; try discriminate; try reflexivity; lia.
Qed.

(** X14. Every award of [handleCompleteGoal] is an entry of the scoring
    table for the goal's type, never the missed one: the points are the
    entry's, and so is the message, except that a long-term goal completed
    by the end of its due date is announced as "Goal achieved!". *)
Theorem awards_follow_the_scoring_table tz now g :
  let award := handleCompleteGoal tz now g in
  exists key entry,
    Scoring.SCORING_CONFIG (goal_type g) key = Some entry /\
    key <> Scoring.missed /\
    userPoints award = Scoring.userPoints entry /\
    aiPoints award = Scoring.aiPoints entry /\
    (message award = Scoring.message entry \/
     message award = "Goal achieved! +10 points").
Proof.
  cbv zeta. unfold handleCompleteGoal.
  destruct (goal_type g), (due_date g), (due_time g);
    repeat match goal with
           | |- context [if ?c then _ else _] => destruct c
           end;
    cbn [userPoints aiPoints message].
  all: first
    [ exists Scoring.earlyCompletion; eexists; split; [reflexivity|];
      repeat split; [discriminate | now left]
    | exists Scoring.onTimeCompletion; eexists; split; [reflexivity|];
      repeat split; [discriminate | now left]
    | exists Scoring.onTimeCompletion; eexists; split; [reflexivity|];
      repeat split; [discriminate | now right]
    | exists Scoring.lateCompletion; eexists; split; [reflexivity|];
      repeat split; [discriminate | now left]
    | exists Scoring.noDeadline; eexists; split; [reflexivity|];
      repeat split; [discriminate | now left] ].
Qed.

(** ** The end-of-day flag *)






(** ** The streak and its badge *)

(** X17. A goal that turns completed stamps today as the last goal date
    and never lowers the longest streak; after the first completion of a
    day the current streak is at most the longest one; a second completion
    on the same day changes nothing; and an update that does not turn
    completed from false or NULL to true leaves the streak alone. *)
Theorem streak_once_a_day today old p :
  old = Some false \/ old = None ->
  exists p',
    update_streak_on_goal_complete today old (Some true) (Some p) = Some p' /\
    last_goal_date p' = Some today /\
    COALESCE (longest_streak p) 0 <= COALESCE (longest_streak p') 0 /\
    (last_goal_date p <> Some today ->
     COALESCE (current_streak p') 0 <= COALESCE (longest_streak p') 0) /\
    update_streak_on_goal_complete today old (Some true) (Some p')
    = Some p' /\
    (forall new, new <> Some true ->
       update_streak_on_goal_complete today old new (Some p) = Some p) /\
    update_streak_on_goal_complete today (Some true) (Some true) (Some p)
    = Some p.
Proof.
  intros Hold. exists (streak_update today p).
  assert (E : forall q,
             update_streak_on_goal_complete today old (Some true) (Some q)
             = Some (streak_update today q))
    by (intros; destruct Hold; subst; reflexivity).
  split; [apply E|].
  assert (L : last_goal_date (streak_update today p) = Some today).
  { unfold streak_update, date_eq.
    destruct (last_goal_date p) as [d|] eqn:Ed; [|reflexivity].
    destruct (Z.eqb_spec d (today - 1)); [reflexivity|].
    destruct (Z.eqb_spec d today); [subst; exact Ed | reflexivity]. }
  split; [exact L|]. split; [| split; [| split; [| split]]].
  - unfold streak_update, date_eq, GREATEST.
    destruct (last_goal_date p) as [d|]; cbn;
      [destruct (d =? today - 1);
       [cbn; lia | destruct (d =? today); cbn; lia] | lia].
  - intros N. unfold streak_update, date_eq, GREATEST.
    destruct (last_goal_date p) as [d|]; cbn;
      [destruct (d =? today - 1);
       [cbn; lia
       | destruct (Z.eqb_spec d today); [subst; congruence | cbn; lia]]
      | lia].
  - rewrite E. f_equal. unfold streak_update at 1. rewrite L.
    unfold date_eq.
    destruct (Z.eqb_spec today (today - 1)); [lia|].
    rewrite Z.eqb_refl. reflexivity.
  - intros new N. unfold update_streak_on_goal_complete.
    destruct new as [[|]|]; try reflexivity. congruence.
  - reflexivity.
Qed.

(** A fifth day in a row. *)
Lemma streak_once_a_day_witness :
  exists p',
    update_streak_on_goal_complete 20098 (Some false) (Some true)
      (Some (Streak.mkProfile (Some 4) (Some 9) (Some 20097))) = Some p' /\
    last_goal_date p' = Some 20098.
Proof.
  destruct (streak_once_a_day 20098 (Some false)
              (Streak.mkProfile (Some 4) (Some 9) (Some 20097))
              (or_introl eq_refl))
    as (p' & E & L & _).
  exists p'. split; assumption.
Defined.

(** X18. The badge tier is monotone in the streak, a completion on the day
    after the last one never lowers the tier, and a completion after a gap
    resets the badge to no tier. *)
Theorem streak_badge_follows_the_streak :
  (forall s s',
      s <= s' ->
      StreakBadge.tierRank (StreakBadge.getStreakTier s)
      <= StreakBadge.tierRank (StreakBadge.getStreakTier s')) /\
  (forall today p,
      last_goal_date p = Some (today - 1) ->
      StreakBadge.tierRank
        (StreakBadge.getStreakTier (COALESCE (current_streak p) 0))
      <= StreakBadge.tierRank
           (StreakBadge.getStreakTier
              (COALESCE (current_streak (streak_update today p)) 0))) /\
  (forall today p,
      last_goal_date p <> Some (today - 1) ->
      last_goal_date p <> Some today ->
      StreakBadge.getStreakTier
        (COALESCE (current_streak (streak_update today p)) 0)
      = StreakBadge.none).
Proof.
  assert (M : forall s s',
             s <= s' ->
             StreakBadge.tierRank (StreakBadge.getStreakTier s)
             <= StreakBadge.tierRank (StreakBadge.getStreakTier s')).
  { intros s s' H. unfold StreakBadge.getStreakTier.
    repeat match goal with
           | |- context [?x >=? ?y] => destruct (Z.geb_spec x y)
           end;
      cbn; lia. }
  split; [exact M|]. split.
  - intros today p H. apply M. unfold streak_update, date_eq.
    rewrite H, Z.eqb_refl. cbn. lia.
  - intros today p H1 H2. unfold streak_update, date_eq.
    destruct (last_goal_date p) as [d|]; [|reflexivity].
    destruct (Z.eqb_spec d (today - 1)); [congruence|].
    destruct (Z.eqb_spec d today); [congruence|]. reflexivity.
Qed.

(** ** Updates of a goal row and the overdue sweep of the database *)

Lemma process_missed_goal_cases dbtz NOW profile g :
  process_missed_goal dbtz NOW profile g = (g, profile) \/
  (completed g = Some false /\
   process_missed_goal dbtz NOW profile g
   = (missedRow NOW g, option_map awarded profile)).
Proof.
  unfold process_missed_goal.
  destruct (truthy (completed g)); [now left|].
  destruct (goal_deadline _ _ g); [|now left].
  destruct (NOW >? z); [|now left].
  destruct (completed g) as [[|]|]; cbn; [now left | right | now left].
  split; reflexivity.
Qed.

(** X19. When an update reaches an uncompleted goal after its deadline,
    the missed-goal trigger marks it completed with 0 points, and the
    streak trigger, which only looks at the completed flag, then counts the
    missed goal as a completion of today. *)
Theorem missed_mark_counts_as_completion dbtz NOW p s g d :
  completed g = Some false ->
  goal_deadline dbtz (Some (dayEndOf p)) g = Some d ->
  d < NOW ->
  update_goal dbtz NOW (Some p) (Some s) g g
  = (missedRow NOW g, Some (awarded p),
     Some (streak_update (CURRENT_DATE dbtz NOW) s)).
Proof.
  intros Hc Hd Hn.
  assert (E : process_missed_goal dbtz NOW (Some p) g
              = (missedRow NOW g, Some (awarded p))).
  { unfold process_missed_goal. rewrite Hc. cbn [truthy option_map].
    fold (dayEndOf p). rewrite Hd.
    destruct (Z.gtb_spec NOW d); [reflexivity | lia]. }
  unfold update_goal. rewrite E.
  unfold update_streak_on_goal_complete. rewrite Hc. reflexivity.
Qed.

(** A goal due on Thursday, touched on Friday: the four-day streak becomes
    five. *)
Lemma missed_mark_counts_as_completion_witness :
  update_goal 0 fridayNoonEST (Some profile40)
    (Some (Streak.mkProfile (Some 4) (Some 9) (Some 20097)))
    dueThursday dueThursday
  = (missedRow fridayNoonEST dueThursday, Some (awarded profile40),
     Some (Streak.mkProfile (Some 5) (Some 9) (Some 20098))).
Proof.
  exact (missed_mark_counts_as_completion 0 fridayNoonEST profile40
           (Streak.mkProfile (Some 4) (Some 9) (Some 20097)) dueThursday
           _ eq_refl eq_refl eq_refl).
Defined.

(** X20. Writing a row back unchanged right after an update changes
    nothing more: no second penalty and no second streak step. *)
Theorem update_goal_idempotent dbtz NOW profile streaks OLD NEW :
  let '(written, profile', streaks') :=
    update_goal dbtz NOW profile streaks OLD NEW in
  update_goal dbtz NOW profile' streaks' written written
  = (written, profile', streaks').
Proof.
  unfold update_goal.
  destruct (process_missed_goal_cases dbtz NOW profile NEW) as [E | [Hc E]];
    rewrite E.
  - destruct (truthy (completed NEW)) eqn:T.
    + unfold process_missed_goal. rewrite T.
      destruct (completed NEW) as [[|]|]; try discriminate.
      unfold update_streak_on_goal_complete.
      destruct (completed OLD) as [[|]|]; destruct streaks; reflexivity.
    + assert (P : process_missed_goal dbtz NOW profile NEW = (NEW, profile))
        by exact E.
      rewrite P.
      unfold update_streak_on_goal_complete.
      destruct (completed NEW) as [[|]|]; try discriminate;
        destruct (completed OLD) as [[|]|]; reflexivity.
  - unfold process_missed_goal at 1. cbn [missedRow completed truthy].
    unfold update_streak_on_goal_complete.
    destruct (completed OLD) as [[|]|]; destruct streaks; reflexivity.
Qed.

Lemma overdue_trigger dbtz NOW p g :
  fst (process_missed_goal dbtz NOW (Some p) g)
  = if overdue dbtz NOW p g then missedRow NOW g else g.
Proof.
  unfold process_missed_goal, overdue. cbn [option_map].
  destruct (completed g) as [[|]|]; cbn [truthy]; try reflexivity.
  - destruct (goal_deadline _ _ g); [|reflexivity].
    destruct (NOW >? z); reflexivity.
  - destruct (goal_deadline _ _ g); [|reflexivity].
    destruct (NOW >? z); reflexivity.
Qed.

Lemma overdue_day_end dbtz NOW p a g :
  overdue dbtz NOW {| day_end_time := day_end_time p; ai_points := a |} g
  = overdue dbtz NOW p g.
Proof. reflexivity. Qed.

Lemma check_all_overdue_goals_day_end dbtz NOW goals :
  forall p,
    day_end_time (snd (check_all_overdue_goals dbtz NOW p goals))
    = day_end_time p.
Proof.
  induction goals as [|g rest IH]; intros p; [reflexivity|].
  cbn [check_all_overdue_goals].
  destruct (overdue dbtz NOW p g).
  - set (p' := {| day_end_time := day_end_time p;
                  ai_points := Some (orZero (ai_points p) + 15) |}).
    specialize (IH p').
    destruct (check_all_overdue_goals dbtz NOW p' rest). exact IH.
  - specialize (IH p).
    destruct (check_all_overdue_goals dbtz NOW p rest). exact IH.
Qed.

(** X21. The overdue sweep of the database marks exactly the rows the
    missed-goal trigger would mark, keeps the day end, and adds 15 AI
    points per marked row; with nothing overdue the profile is not
    written. *)
Theorem check_all_overdue_goals_accounting dbtz NOW p goals :
  let n := overdueCount dbtz NOW p goals in
  fst (check_all_overdue_goals dbtz NOW p goals)
  = map (fun g => fst (process_missed_goal dbtz NOW (Some p) g)) goals /\
  day_end_time (snd (check_all_overdue_goals dbtz NOW p goals))
  = day_end_time p /\
  ai_points (snd (check_all_overdue_goals dbtz NOW p goals))
  = (if n =? 0 then ai_points p else Some (orZero (ai_points p) + 15 * n)).
Proof.
  cbv zeta. unfold overdueCount. revert p.
  induction goals as [|g rest IH]; intros p.
  - repeat split.
  - cbn [check_all_overdue_goals map filter].
    rewrite overdue_trigger.
    destruct (overdue dbtz NOW p g) eqn:O.
    + set (p' := {| day_end_time := day_end_time p;
                    ai_points := Some (orZero (ai_points p) + 15) |}).
      specialize (IH p').
      destruct (check_all_overdue_goals dbtz NOW p' rest) as [rest' final].
      cbn [fst snd] in *. destruct IH as (I1 & I2 & I3).
      assert (F : filter (overdue dbtz NOW p') rest
                  = filter (overdue dbtz NOW p) rest)
        by (apply filter_ext; intros; apply overdue_day_end).
      assert (M : map (fun g0 =>
                         fst (process_missed_goal dbtz NOW (Some p') g0))
                    rest
                  = map (fun g0 =>
                           fst (process_missed_goal dbtz NOW (Some p) g0))
                      rest).
      { apply map_ext. intros g0. rewrite !overdue_trigger.
        unfold p'. rewrite overdue_day_end. reflexivity. }
      rewrite F in I3. rewrite M in I1.
      split; [f_equal; exact I1|]. split; [exact I2|].
      rewrite I3. cbn [List.length]. unfold p'; cbn [ai_points orZero].
      set (k := List.length (filter (overdue dbtz NOW p) rest)).
      rewrite Nat2Z.inj_succ.
      destruct (Z.eqb_spec (Z.of_nat k) 0);
        destruct (Z.eqb_spec (Z.succ (Z.of_nat k)) 0); try lia; f_equal; lia.
    + specialize (IH p).
      destruct (check_all_overdue_goals dbtz NOW p rest) as [rest' final].
      cbn [fst snd] in *. destruct IH as (I1 & I2 & I3).
      split; [f_equal; exact I1|]. split; assumption.
Qed.

(** X22. Running the overdue sweep a second time at the same instant
    changes neither the rows nor the profile. *)
Theorem check_all_overdue_goals_idempotent dbtz NOW p goals :
  let '(goals', p') := check_all_overdue_goals dbtz NOW p goals in
  check_all_overdue_goals dbtz NOW p' goals' = (goals', p').
Proof.
  revert p. induction goals as [|g rest IH]; intros p; [reflexivity|].
  cbn [check_all_overdue_goals].
  destruct (overdue dbtz NOW p g) eqn:O.
  - set (p1 := {| day_end_time := day_end_time p;
                  ai_points := Some (orZero (ai_points p) + 15) |}).
    specialize (IH p1).
    destruct (check_all_overdue_goals dbtz NOW p1 rest) as [rest' final].
    cbn [check_all_overdue_goals]. unfold overdue at 1. cbn [completed].
    rewrite IH. reflexivity.
  - specialize (IH p).
    pose proof (check_all_overdue_goals_day_end dbtz NOW rest p) as D.
    destruct (check_all_overdue_goals dbtz NOW p rest) as [rest' final].
    cbn [snd] in D.
    cbn [check_all_overdue_goals].
    assert (O' : overdue dbtz NOW final g = false).
    { destruct final as [de ap]; destruct p as [de0 ap0]; cbn in D;
        subst de. exact O. }
    rewrite O', IH. reflexivity.
Qed.

(** ** The sweeps of the dashboard *)

Lemma earlier_marked_not_missed tz now g :
  DashboardEarlier.missed tz now (DashboardEarlier.markMissed g) = false.
Proof. reflexivity. Qed.

Lemma earlier_filter_after tz now goals :
  filter (DashboardEarlier.missed tz now)
    (map (fun g => if DashboardEarlier.missed tz now g
                   then DashboardEarlier.markMissed g else g) goals) = [].
Proof.
  induction goals as [|g rest IH]; [reflexivity|].
  cbn [map filter]. destruct (DashboardEarlier.missed tz now g) eqn:M.
  - rewrite earlier_marked_not_missed. exact IH.
  - rewrite M. exact IH.
Qed.

(** X23. The sweep of the earlier Dashboard revision keeps the number of
    goals, adds 15 AI points per missed goal in one write (none when there
    is no missed goal), never touches a completed goal, leaves the points
    of the goals it marks as they were, and finds nothing to do when run
    again at the same instant. *)
Theorem earlier_sweep_accounting tz now total goals :
  let n :=
    Z.of_nat (List.length (filter (DashboardEarlier.missed tz now) goals)) in
  let after := DashboardEarlier.handleMissedGoals tz now total goals in
  List.length (fst after) = List.length goals /\
  snd after = (if n =? 0 then total else Some (orZero total + 15 * n)) /\
  (forall g, In g goals -> truthy (completed g) = true -> In g (fst after)) /\
  (forall g', In g' (fst after) ->
     In g' goals \/
     exists g, In g goals /\ truthy (completed g) = false /\
               g' = DashboardEarlier.markMissed g /\
               points_earned g' = points_earned g) /\
  DashboardEarlier.handleMissedGoals tz now (snd after) (fst after) = after.
Proof.
  cbv zeta. unfold DashboardEarlier.handleMissedGoals.
  destruct (filter (DashboardEarlier.missed tz now) goals) as [|m ms] eqn:F.
  - cbn [fst snd List.length]. rewrite F. repeat split; auto.
  - cbn [fst snd].
    assert (N : (Z.of_nat (List.length (m :: ms)) =? 0) = false)
      by (apply Z.eqb_neq; cbn [List.length]; lia).
    rewrite N. split; [apply length_map|]. split; [f_equal; lia|].
    split; [| split].
    + intros g Hin Hc. apply in_map_iff. exists g. split; [|exact Hin].
      unfold DashboardEarlier.missed. rewrite Hc. reflexivity.
    + intros g' Hin. apply in_map_iff in Hin. destruct Hin as (g & E & Hin).
      destruct (DashboardEarlier.missed tz now g) eqn:M.
      * right. exists g. repeat split; auto.
        -- unfold DashboardEarlier.missed in M.
           destruct (truthy (completed g)); [discriminate | reflexivity].
        -- subst g'. reflexivity.
      * left. subst g'. exact Hin.
    + rewrite earlier_filter_after. reflexivity.
Qed.

(** X24. The sweep only ever selects goals shown as active; active and
    completed goals split the goal list; and when the arena shows no
    active goal the sweep selects nothing. *)
Theorem sweep_selects_active_goals tz now day_end goals :
  incl (handleMissedGoals tz now day_end goals)
       (DashboardState.activeGoals goals) /\
  (List.length (DashboardState.activeGoals goals)
   + List.length (DashboardState.completedGoals goals)
   = List.length goals)%nat /\
  (DashboardState.isActive goals = false ->
   handleMissedGoals tz now day_end goals = []).
Proof.
  assert (I : incl (handleMissedGoals tz now day_end goals)
                   (DashboardState.activeGoals goals)).
  { intros g Hin. unfold handleMissedGoals in Hin. apply filter_In in Hin.
    destruct Hin as [Hin M]. apply filter_In. split; [exact Hin|].
    unfold missed in M.
    destruct (truthy (completed g)); [discriminate | reflexivity]. }
  split; [exact I|]. split.
  - clear I.
    unfold DashboardState.activeGoals, DashboardState.completedGoals.
    induction goals as [|g rest IH]; [reflexivity|].
    cbn [filter]. destruct (truthy (completed g)); cbn [negb List.length];
      rewrite <- IH; lia.
  - intros A. unfold DashboardState.isActive in A.
    destruct (DashboardState.activeGoals goals) as [|x xs] eqn:E.
    + destruct (handleMissedGoals tz now day_end goals) as [|y ys];
        [reflexivity|].
      exfalso. apply (I y). left; reflexivity.
    + cbn [List.length] in A. apply Z.ltb_ge in A. lia.
Qed.
